(** * HelpConnect: page handlers of the donation / help-request marketplace

    A shallow embedding of the page components
    - [HelpRequestForm] (src/pages/HelpRequestForm.tsx) and [DonationForm],
    - the listing pages [HelpRequests] and [Donations],
    - the [Profile] page,
    and the properties of their submit, list and delete flows.

    JavaScript strings are sequences of UTF-16 code units.  Handlers are
    written in a small monad that threads the component state and the log
    of observable effects (toasts, navigation, console output, requests
    sent to the backend), with exceptions for [throw] / rejected promises. *)

From Stdlib Require Import String Ascii NArith.
From stdpp Require Import base option list gmap.

Set Default Proof Using "Type".

(** ** Strings *)

Module JsString.

(** A string is the list of its UTF-16 code units; [lit] turns an ASCII
    literal of the source into one. *)
Fixpoint lit (s : string) : list N :=
  match s with
  | EmptyString => []
  | String a r => N_of_ascii a :: lit r
  end.

(** [!s] and [s || d]: the empty string is the only falsy string. *)
Definition falsy (s : list N) : bool :=
  match s with
  | [] => true
  | _ :: _ => false
  end.

Definition or_else (s d : list N) : list N :=
  if falsy s then d else s.

(** [a === b] on strings. *)
Definition eqb (a b : list N) : bool := bool_decide (a = b).

(** ECMAScript WhiteSpace and LineTerminator code points, the ones
    [String.prototype.trim] strips. *)
Definition is_space (c : N) : bool :=
  ((9 <=? c) && (c <=? 13) || (c =? 32) || (c =? 160) || (c =? 5760)
   || (8192 <=? c) && (c <=? 8202) || (c =? 8232) || (c =? 8233)
   || (c =? 8239) || (c =? 8287) || (c =? 12288) || (c =? 65279))%N.

Fixpoint trimStart (s : list N) : list N :=
  match s with
  | [] => []
  | c :: r => if is_space c then trimStart r else s
  end.

Definition trimEnd (s : list N) : list N := rev (trimStart (rev s)).

Definition trim (s : list N) : list N := trimEnd (trimStart s).

(** Specification side: [s] is empty or consists of whitespace only. *)
Definition blank (s : list N) : Prop := Forall (fun c => is_space c = true) s.

Fixpoint startsWith (s sub : list N) {struct sub} : bool :=
  match sub, s with
  | [], _ => true
  | _ :: _, [] => false
  | c :: sub', d :: s' => (c =? d)%N && startsWith s' sub'
  end.

(** [s.includes(sub)]: [sub] occurs at some position of [s]. *)
Fixpoint includes (s sub : list N) : bool :=
  startsWith s sub ||
  match s with
  | [] => false
  | _ :: s' => includes s' sub
  end.

(** Specification side: [sub] is a substring of [s]. *)
Definition substring (sub s : list N) : Prop :=
  exists pre post, s = pre ++ sub ++ post.

(** An ASCII-only case mapping, one admissible instance of
    [toLowerCase] on strings without other cased letters. *)
Definition lower_unit (c : N) : N :=
  if ((65 <=? c) && (c <=? 90))%N then (c + 32)%N else c.

Definition ascii_toLowerCase (s : list N) : list N := map lower_unit s.

End JsString.

Abbreviation jsstring := (list N) (only parsing).
Abbreviation js := JsString.lit.
Arguments JsString.lit s%_string : simpl never.
Infix "===" := JsString.eqb (at level 70, no associativity).

(** ** Effects *)

(** What a handler sends to the backend. *)
Record HelpRequestInsert := {
  hri_user_id : jsstring;
  hri_title : jsstring;
  hri_description : jsstring;
  hri_category : jsstring;
  hri_location : jsstring;
  hri_urgency : jsstring;
}.

Record DonationInsert := {
  di_user_id : jsstring;
  di_title : jsstring;
  di_description : jsstring;
  di_category : jsstring;
  di_location : jsstring;
}.

Inductive Request :=
| InsertHelpRequest (row : HelpRequestInsert)   (* from("help_requests").insert(row) *)
| InsertDonation (row : DonationInsert)         (* from("donations").insert(row) *)
| DeleteById (table id : jsstring)              (* from(table).delete().eq("id", id) *)
| SelectByStatus (table status : jsstring)      (* from(table).select("*").eq("status", s).order(..) *)
| SelectProfilesIn (ids : list jsstring)        (* from("profiles").select(..).in("id", ids) *)
| SelectByUser (table columns uid : jsstring).  (* from(table).select(cols).eq("user_id", uid).order(..) *)

Inductive Event :=
| ToastError (msg : jsstring)
| ToastSuccess (msg : jsstring)
| Navigate (path : jsstring)
| ConsoleError (label : jsstring)
| Sent (q : Request).

Definition is_insert (e : Event) : bool :=
  match e with
  | Sent (InsertHelpRequest _) | Sent (InsertDonation _) => true
  | _ => false
  end.

Definition is_select (e : Event) : bool :=
  match e with
  | Sent (SelectByStatus _ _) | Sent (SelectProfilesIn _) | Sent (SelectByUser _ _ _) => true
  | _ => false
  end.

Definition is_toast (e : Event) : bool :=
  match e with
  | ToastError _ | ToastSuccess _ => true
  | _ => false
  end.

Definition is_navigate (e : Event) : bool :=
  match e with
  | Navigate _ => true
  | _ => false
  end.

(** The backend client answers a request with a [{ data, error }] record;
    the promise it returns may also reject. *)
Record PostgrestError := { code : jsstring; message : jsstring }.

Record Response (A : Type) := { data : option A; error : option PostgrestError }.
Arguments data {A} _.
Arguments error {A} _.

Inductive Awaited (A : Type) :=
| Resolved (r : A)
| Rejected (reason : jsstring).
Arguments Resolved {A} _.
Arguments Rejected {A} _.

(** ** The handler monad *)

Section Handler.
Context {S : Type}.

Record World := { ui : S; log : list Event }.

Inductive Completion (A : Type) :=
| Normal (a : A)
| Throw (err : jsstring).

Definition Handler (A : Type) : Type := World -> Completion A * World.

Definition ret {A} (a : A) : Handler A := fun w => (Normal A a, w).

Definition bind {A B} (m : Handler A) (k : A -> Handler B) : Handler B :=
  fun w =>
    match m w with
    | (Normal _ a, w') => k a w'
    | (Throw _ e, w') => (Throw B e, w')
    end.

Definition throw {A} (e : jsstring) : Handler A := fun w => (Throw A e, w).

Definition emit (e : Event) : Handler unit :=
  fun w => (Normal unit tt, {| ui := ui w; log := log w ++ [e] |}).

Definition setState (f : S -> S) : Handler unit :=
  fun w => (Normal unit tt, {| ui := f (ui w); log := log w |}).

Definition getState : Handler S := fun w => (Normal S (ui w), w).

(** [try { body } catch (err) { handler err } finally { fin }] *)
Definition try_catch_finally (body : Handler unit)
    (handler : jsstring -> Handler unit) (fin : Handler unit) : Handler unit :=
  fun w =>
    match body w with
    | (Normal _ _, w1) => fin w1
    | (Throw _ e, w1) =>
        match handler e w1 with
        | (Normal _ _, w2) => fin w2
        | (Throw _ e', w2) =>
            match fin w2 with
            | (Normal _ _, w3) => (Throw unit e', w3)
            | (Throw _ e'', w3) => (Throw unit e'', w3)
            end
        end
    end.

(** [try { body } catch (err) { handler err }] *)
Definition try_catch (body : Handler unit)
    (handler : jsstring -> Handler unit) : Handler unit :=
  fun w =>
    match body w with
    | (Normal _ _, w1) => (Normal unit tt, w1)
    | (Throw _ e, w1) => handler e w1
    end.

(** [await p] *)
Definition await {A} (p : Awaited A) : Handler A :=
  match p with
  | Resolved r => ret r
  | Rejected e => throw e
  end.

(** Sending a request and awaiting its answer. *)
Definition send {A} (q : Request) (answer : Awaited A) : Handler A :=
  bind (emit (Sent q)) (fun _ => await answer).

(** [await Promise.all([p, q])]: both requests are sent before either
    answer is looked at; the join rejects as soon as one of them does. *)
Definition send_all {A B} (q1 : Request) (a1 : Awaited A)
    (q2 : Request) (a2 : Awaited B) : Handler (A * B) :=
  bind (emit (Sent q1)) (fun _ =>
  bind (emit (Sent q2)) (fun _ =>
    match a1, a2 with
    | Resolved r1, Resolved r2 => ret (r1, r2)
    | Rejected e, _ => throw e
    | _, Rejected e => throw e
    end)).

Definition run {A} (h : Handler A) (s : S) : Completion A * World :=
  h {| ui := s; log := [] |}.

(** Component state and effects after the handler has run. *)
Definition final {A} (h : Handler A) (s : S) : S := ui (snd (run h s)).
Definition effects {A} (h : Handler A) (s : S) : list Event := log (snd (run h s)).

End Handler.

Arguments World : clear implicits.
Arguments Handler : clear implicits.
Arguments Normal {A} _.
Arguments Throw {A} _.

Notation "x <- m ;; k" := (bind m (fun x => k))
  (at level 100, m at next level, right associativity, only parsing).
Notation "m ;;; k" := (bind m (fun _ => k))
  (at level 100, right associativity, only parsing).

Definition toast_error {S} (msg : jsstring) : Handler S unit := emit (ToastError msg).
Definition toast_success {S} (msg : jsstring) : Handler S unit := emit (ToastSuccess msg).
Definition navigate {S} (path : jsstring) : Handler S unit := emit (Navigate path).
Definition console_error {S} (label : jsstring) : Handler S unit := emit (ConsoleError label).

(** The signed-in account, as [useAuth] provides it. *)
Record User := { user_id_of : jsstring }.

(** ** HelpRequestForm (src/pages/HelpRequestForm.tsx) *)

Module HelpRequestForm.

Record FormData := {
  title : jsstring;
  category : jsstring;
  description : jsstring;
  location : jsstring;
  urgency : jsstring;
}.

Record State := { loading : bool; formData : FormData }.

Definition setLoading (b : bool) : Handler State unit :=
  setState (fun s => {| loading := b; formData := formData s |}).

Definition profile_not_found := js "User profile not found. Please try logging out and back in.".
Definition permission_denied := js "Permission denied. Please ensure you're logged in.".
Definition generic_failure := js "Failed to submit help request. Please try again.".
Definition success_route := js "/request-success".

(** The object literal passed to [insert]. *)
Definition insert_row (user : User) (formData : FormData) : HelpRequestInsert :=
  {| hri_user_id := user_id_of user;
     hri_title := JsString.trim (title formData);
     hri_description := JsString.trim (description formData);
     hri_category := category formData;
     hri_location := JsString.trim (location formData);
     hri_urgency := urgency formData |}.

Definition handleSubmit (user : option User)
    (insert : HelpRequestInsert -> Awaited (Response unit)) : Handler State unit :=
  st <- getState ;;
  let formData := formData st in
  match user with
  | None =>
      toast_error (js "Please sign in to submit a help request") ;;;
      navigate (js "/login")
  | Some user =>
      if JsString.falsy (JsString.trim (title formData)) then
        toast_error (js "Please enter a title")
      else if JsString.falsy (category formData) then
        toast_error (js "Please select a category")
      else if JsString.falsy (JsString.trim (description formData)) then
        toast_error (js "Please enter a description")
      else if JsString.falsy (JsString.trim (location formData)) then
        toast_error (js "Please enter a location")
      else if JsString.falsy (urgency formData) then
        toast_error (js "Please select an urgency level")
      else
        setLoading true ;;;
        try_catch_finally
          (let row := insert_row user formData in
           res <- send (InsertHelpRequest row) (insert row) ;;
           match error res with
           | Some error =>
               (if code error === js "23503" then
                  toast_error profile_not_found
                else if code error === js "42501" then
                  toast_error permission_denied
                else
                  toast_error generic_failure) ;;;
               console_error (js "Help request error:")
           | None =>
               toast_success (js "Help request submitted successfully!") ;;;
               navigate success_route
           end)
          (fun err =>
             toast_error (js "An unexpected error occurred. Please try again.") ;;;
             console_error (js "Unexpected error:"))
          (setLoading false)
  end.

(** The messages of the five field checks. *)
Definition validation_messages : list jsstring :=
  [ js "Please enter a title"; js "Please select a category";
    js "Please enter a description"; js "Please enter a location";
    js "Please select an urgency level" ].

(** Specification side: some required field is empty after trimming,
    or a selection is missing. *)
Definition incomplete (fd : FormData) : Prop :=
  JsString.blank (title fd) \/ category fd = [] \/ JsString.blank (description fd)
  \/ JsString.blank (location fd) \/ urgency fd = [].

End HelpRequestForm.

(** ** DonationForm *)

Module DonationForm.

Record FormData := {
  title : jsstring;
  category : jsstring;
  description : jsstring;
  location : jsstring;
}.

Record State := { loading : bool; formData : FormData }.

Definition setLoading (b : bool) : Handler State unit :=
  setState (fun s => {| loading := b; formData := formData s |}).

Definition profile_not_found := js "User profile not found. Please try logging out and back in.".
Definition permission_denied := js "Permission denied. Please ensure you're logged in.".
Definition generic_failure := js "Failed to submit donation. Please try again.".
Definition success_route := js "/donation-success".

(** The object literal passed to [insert]. *)
Definition insert_row (user : User) (formData : FormData) : DonationInsert :=
  {| di_user_id := user_id_of user;
     di_title := JsString.trim (title formData);
     di_description := JsString.trim (description formData);
     di_category := category formData;
     di_location := JsString.trim (location formData) |}.

Definition handleSubmit (user : option User)
    (insert : DonationInsert -> Awaited (Response unit)) : Handler State unit :=
  st <- getState ;;
  let formData := formData st in
  match user with
  | None =>
      toast_error (js "Please sign in to submit a donation") ;;;
      navigate (js "/login")
  | Some user =>
      if JsString.falsy (JsString.trim (title formData)) then
        toast_error (js "Please enter a title")
      else if JsString.falsy (category formData) then
        toast_error (js "Please select a category")
      else if JsString.falsy (JsString.trim (description formData)) then
        toast_error (js "Please enter a description")
      else if JsString.falsy (JsString.trim (location formData)) then
        toast_error (js "Please enter a location")
      else
        setLoading true ;;;
        try_catch_finally
          (let row := insert_row user formData in
           res <- send (InsertDonation row) (insert row) ;;
           match error res with
           | Some error =>
               (if code error === js "23503" then
                  toast_error profile_not_found
                else if code error === js "42501" then
                  toast_error permission_denied
                else
                  toast_error generic_failure) ;;;
               console_error (js "Donation error:")
           | None =>
               toast_success (js "Donation submitted successfully!") ;;;
               navigate success_route
           end)
          (fun err =>
             toast_error (js "An unexpected error occurred. Please try again.") ;;;
             console_error (js "Unexpected error:"))
          (setLoading false)
  end.

(** The messages of the four field checks. *)
Definition validation_messages : list jsstring :=
  [ js "Please enter a title"; js "Please select a category";
    js "Please enter a description"; js "Please enter a location" ].

(** Specification side: some required field is empty after trimming,
    or no category is selected. *)
Definition incomplete (fd : FormData) : Prop :=
  JsString.blank (title fd) \/ category fd = [] \/ JsString.blank (description fd)
  \/ JsString.blank (location fd).

End DonationForm.

(** ** The listing pages ([HelpRequests], [Donations])

    The two pages differ only in the row shape, the table, the status
    value and their texts; the page logic is written once over the
    columns it reads. *)

Record Profile := { profile_id : jsstring; full_name : option jsstring }.

Definition Anonymous : jsstring := js "Anonymous".

(** [o || d] when [o] may be [null] / [undefined]. *)
Definition or_default (o : option jsstring) (d : jsstring) : jsstring :=
  match o with
  | Some s => JsString.or_else s d
  | None => d
  end.

(** [[...new Set(xs)]]: [Set] keeps the first occurrence of each value,
    in insertion order. *)
Definition set_add (seen : list jsstring) (x : jsstring) : list jsstring :=
  if decide (x ∈ seen) then seen else seen ++ [x].

Definition set_spread (xs : list jsstring) : list jsstring :=
  foldl set_add [] xs.

(** [profilesData?.forEach(p => profileMap.set(p.id, p.full_name || "Anonymous"))] *)
Definition profileMap_set (m : gmap (list N) (list N)) (p : Profile) : gmap (list N) (list N) :=
  <[profile_id p := or_default (full_name p) Anonymous]> m.

Definition build_profileMap (profilesData : option (list Profile)) : gmap (list N) (list N) :=
  match profilesData with
  | Some ps => foldl profileMap_set ∅ ps
  | None => ∅
  end.

Module Listing.

(** The columns of a row the page reads. *)
Class Columns (Row : Type) := {
  title : Row -> jsstring;
  description : Row -> option jsstring;
  category : Row -> jsstring;
  user_id : Row -> jsstring;
}.

(** [{ ...r, userName }] *)
Record Named (Row : Type) := { row : Row; userName : jsstring }.
Arguments row {Row} _.
Arguments userName {Row} _.

Record State (Row : Type) := {
  searchQuery : jsstring;
  selectedCategory : jsstring;
  rows : list (Named Row);
  loading : bool;
  error_state : option jsstring;
}.
Arguments searchQuery {Row} _.
Arguments selectedCategory {Row} _.
Arguments rows {Row} _.
Arguments loading {Row} _.
Arguments error_state {Row} _.

(** Page texts. *)
Record Texts := {
  table : jsstring;
  status : jsstring;
  rows_error_label : jsstring;
  rows_error_thrown : jsstring;
  failed_to_load : jsstring;
}.

Section Page.
Context {Row : Type} `{Columns Row}.
Variable txt : Texts.
(** [String.prototype.toLowerCase], the Unicode case mapping. *)
Variable toLowerCase : jsstring -> jsstring.

Definition setError (e : option jsstring) : Handler (State Row) unit :=
  setState (fun s => {| searchQuery := searchQuery s; selectedCategory := selectedCategory s;
                        rows := rows s; loading := loading s; error_state := e |}).

Definition setLoading (b : bool) : Handler (State Row) unit :=
  setState (fun s => {| searchQuery := searchQuery s; selectedCategory := selectedCategory s;
                        rows := rows s; loading := b; error_state := error_state s |}).

Definition setRows (l : list (Named Row)) : Handler (State Row) unit :=
  setState (fun s => {| searchQuery := searchQuery s; selectedCategory := selectedCategory s;
                        rows := l; loading := loading s; error_state := error_state s |}).

(** [(rowsData || []).map(r => ({ ...r, userName: profileMap.get(r.user_id) || "Anonymous" }))] *)
Definition withNames (profileMap : gmap (list N) (list N)) (rowsData : option (list Row))
    : list (Named Row) :=
  map (fun r => {| row := r; userName := or_default (profileMap !! user_id r) Anonymous |})
      (default [] rowsData).

(** [[...new Set(rowsData?.map(r => r.user_id) || [])]] *)
Definition userIds_of (rowsData : option (list Row)) : list jsstring :=
  set_spread (default [] (map user_id <$> rowsData)).

(** [fetchRequests] / [fetchDonations] *)
Definition fetchRows (rowsAnswer : Awaited (Response (list Row)))
    (profilesAnswer : list jsstring -> Awaited (Response (list Profile)))
    : Handler (State Row) unit :=
  setError None ;;;
  setLoading true ;;;
  try_catch_finally
    (res <- send (SelectByStatus (table txt) (status txt)) rowsAnswer ;;
     let rowsData := data res in
     match error res with
     | Some rowsError =>
         console_error (rows_error_label txt) ;;;
         throw (rows_error_thrown txt)
     | None =>
         let userIds := userIds_of rowsData in
         profileMap <-
           (if (0 <? length userIds)%nat then
              pres <- send (SelectProfilesIn userIds) (profilesAnswer userIds) ;;
              match error pres with
              | Some profilesError =>
                  console_error (js "Profiles fetch error:") ;;;
                  ret ∅
              | None => ret (build_profileMap (data pres))
              end
            else ret ∅) ;;
         setRows (withNames profileMap rowsData)
     end)
    (fun err =>
       setError (Some (failed_to_load txt)) ;;;
       console_error (js "Fetch error:"))
    (setLoading false).

Definition matchesSearch (searchQuery : jsstring) (r : Row) : bool :=
  JsString.includes (toLowerCase (title r)) (toLowerCase searchQuery) ||
  match description r with
  | Some d => JsString.includes (toLowerCase d) (toLowerCase searchQuery)
  | None => false
  end.

Definition matchesCategory (selectedCategory : jsstring) (r : Row) : bool :=
  (selectedCategory === js "All") || (category r === selectedCategory).

(** [filteredRequests] / [filteredDonations] *)
Definition filteredRows (st : State Row) : list (Named Row) :=
  List.filter
    (fun x => matchesSearch (searchQuery st) (row x) && matchesCategory (selectedCategory st) (row x))
    (rows st).

End Page.

End Listing.

Module HelpRequests.

Record HelpRequest := {
  id : jsstring;
  title : jsstring;
  description : option jsstring;
  category : jsstring;
  location : option jsstring;
  urgency : jsstring;
  created_at : jsstring;
  user_id : jsstring;
}.

#[global] Instance columns : Listing.Columns HelpRequest :=
  {| Listing.title := title; Listing.description := description;
     Listing.category := category; Listing.user_id := user_id |}.

Definition texts : Listing.Texts :=
  {| Listing.table := js "help_requests";
     Listing.status := js "open";
     Listing.rows_error_label := js "Requests fetch error:";
     Listing.rows_error_thrown := js "Failed to load help requests";
     Listing.failed_to_load := js "Failed to load help requests. Please try again." |}.

Definition State := Listing.State HelpRequest.

Definition fetchRequests := Listing.fetchRows (Row := HelpRequest) texts.

Definition filteredRequests (toLowerCase : jsstring -> jsstring) :=
  Listing.filteredRows (Row := HelpRequest) toLowerCase.

End HelpRequests.

Module Donations.

Record Donation := {
  id : jsstring;
  title : jsstring;
  description : option jsstring;
  category : jsstring;
  location : option jsstring;
  created_at : jsstring;
  user_id : jsstring;
}.

#[global] Instance columns : Listing.Columns Donation :=
  {| Listing.title := title; Listing.description := description;
     Listing.category := category; Listing.user_id := user_id |}.

Definition texts : Listing.Texts :=
  {| Listing.table := js "donations";
     Listing.status := js "available";
     Listing.rows_error_label := js "Donations fetch error:";
     Listing.rows_error_thrown := js "Failed to load donations";
     Listing.failed_to_load := js "Failed to load donations. Please try again." |}.

Definition State := Listing.State Donation.

Definition fetchDonations := Listing.fetchRows (Row := Donation) texts.

Definition filteredDonations (toLowerCase : jsstring -> jsstring) :=
  Listing.filteredRows (Row := Donation) toLowerCase.

End Donations.

(** ** The Profile page *)

Module Profile.

Record Donation := {
  d_id : jsstring;
  d_title : jsstring;
  d_description : option jsstring;
  d_category : jsstring;
  d_created_at : jsstring;
}.

Record HelpRequest := {
  r_id : jsstring;
  r_title : jsstring;
  r_description : option jsstring;
  r_category : jsstring;
  r_urgency : jsstring;
  r_created_at : jsstring;
}.

Record State := {
  donations : list Donation;
  requests : list HelpRequest;
  loading : bool;
  error_state : option jsstring;
}.

Definition setDonations (l : list Donation) : Handler State unit :=
  setState (fun s => {| donations := l; requests := requests s;
                        loading := loading s; error_state := error_state s |}).

Definition setRequests (l : list HelpRequest) : Handler State unit :=
  setState (fun s => {| donations := donations s; requests := l;
                        loading := loading s; error_state := error_state s |}).

Definition setLoading (b : bool) : Handler State unit :=
  setState (fun s => {| donations := donations s; requests := requests s;
                        loading := b; error_state := error_state s |}).

Definition setError (e : option jsstring) : Handler State unit :=
  setState (fun s => {| donations := donations s; requests := requests s;
                        loading := loading s; error_state := e |}).

Definition donations_query (uid : jsstring) : Request :=
  SelectByUser (js "donations") (js "id, title, description, category, created_at") uid.

Definition requests_query (uid : jsstring) : Request :=
  SelectByUser (js "help_requests") (js "id, title, description, category, urgency, created_at") uid.

Definition failed_to_load := js "Failed to load your data. Please try refreshing the page.".

Definition fetchUserData (user : option User)
    (donationsAnswer : Awaited (Response (list Donation)))
    (requestsAnswer : Awaited (Response (list HelpRequest))) : Handler State unit :=
  match user with
  | None => ret tt
  | Some user =>
      setError None ;;;
      try_catch_finally
        (both <- send_all (donations_query (user_id_of user)) donationsAnswer
                          (requests_query (user_id_of user)) requestsAnswer ;;
         let donationsRes := fst both in
         let requestsRes := snd both in
         match error donationsRes with
         | Some _ =>
             console_error (js "Donations fetch error:") ;;;
             throw (js "Failed to load donations")
         | None =>
             match error requestsRes with
             | Some _ =>
                 console_error (js "Requests fetch error:") ;;;
                 throw (js "Failed to load help requests")
             | None =>
                 setDonations (default [] (data donationsRes)) ;;;
                 setRequests (default [] (data requestsRes))
             end
         end)
        (fun err =>
           setError (Some failed_to_load) ;;;
           console_error (js "Profile data fetch error:"))
        (setLoading false)
  end.

Definition donation_permission_denied := js "You don't have permission to delete this donation".
Definition donation_delete_failed := js "Failed to delete donation".
Definition request_permission_denied := js "You don't have permission to delete this request".
Definition request_delete_failed := js "Failed to delete request".

Definition handleDeleteDonation (id : jsstring)
    (answer : Awaited (Response unit)) : Handler State unit :=
  st <- getState ;;
  let donations := donations st in
  try_catch
    (res <- send (DeleteById (js "donations") id) answer ;;
     match error res with
     | Some error =>
         (if code error === js "42501" then
            toast_error donation_permission_denied
          else
            toast_error donation_delete_failed) ;;;
         console_error (js "Delete donation error:")
     | None =>
         setDonations (List.filter (fun d => negb (d_id d === id)) donations) ;;;
         toast_success (js "Donation deleted successfully")
     end)
    (fun err =>
       toast_error (js "An unexpected error occurred") ;;;
       console_error (js "Unexpected delete error:")).

Definition handleDeleteRequest (id : jsstring)
    (answer : Awaited (Response unit)) : Handler State unit :=
  st <- getState ;;
  let requests := requests st in
  try_catch
    (res <- send (DeleteById (js "help_requests") id) answer ;;
     match error res with
     | Some error =>
         (if code error === js "42501" then
            toast_error request_permission_denied
          else
            toast_error request_delete_failed) ;;;
         console_error (js "Delete request error:")
     | None =>
         setRequests (List.filter (fun r => negb (r_id r === id)) requests) ;;;
         toast_success (js "Request deleted successfully")
     end)
    (fun err =>
       toast_error (js "An unexpected error occurred") ;;;
       console_error (js "Unexpected delete error:")).

End Profile.

(** ** Specification-side notions for the listing pages *)

(** The id -> full_name lookup of a profile list: the entry for [uid]
    (the last one, should an id occur more than once), [None] when no
    profile has that id. *)
Fixpoint lookup_full_name (ps : list Profile) (uid : jsstring) : option (option jsstring) :=
  match ps with
  | [] => None
  | p :: ps' =>
      match lookup_full_name ps' uid with
      | Some n => Some n
      | None => if decide (profile_id p = uid) then Some (full_name p) else None
      end
  end.

(** The display name as the merge is described: the looked-up full name,
    "Anonymous" when there is no entry or the full name is absent. *)
Definition described_name (ps : list Profile) (uid : jsstring) : jsstring :=
  match lookup_full_name ps uid with
  | Some (Some n) => n
  | Some None | None => Anonymous
  end.

(** The same, with an empty full name treated like an absent one. *)
Definition display_name (ps : list Profile) (uid : jsstring) : jsstring :=
  match lookup_full_name ps uid with
  | Some (Some (c :: n)) => c :: n
  | Some (Some []) | Some None | None => Anonymous
  end.

(** The id lists of the profile queries among the effects. *)
Fixpoint profiles_queried (ev : list Event) : list (list jsstring) :=
  match ev with
  | [] => []
  | Sent (SelectProfilesIn ids) :: ev' => ids :: profiles_queried ev'
  | _ :: ev' => profiles_queried ev'
  end.

(** ** Specification-side notions for the profile page *)

(** A fetch fails when its promise rejects or its answer carries an error. *)
Definition answer_failed {A} (a : Awaited (Response A)) : Prop :=
  match a with
  | Resolved r => error r <> None
  | Rejected _ => True
  end.

(** ** Sample inputs *)

Definition sample_user : User := {| user_id_of := js "u1" |}.

Definition sample_help_form : HelpRequestForm.State :=
  {| HelpRequestForm.loading := false;
     HelpRequestForm.formData :=
       {| HelpRequestForm.title := js "  Winter coat ";
          HelpRequestForm.category := js "Clothing";
          HelpRequestForm.description := js "Size M";
          HelpRequestForm.location := js "Pune ";
          HelpRequestForm.urgency := js "high" |} |}.

Definition sample_donation_form : DonationForm.State :=
  {| DonationForm.loading := false;
     DonationForm.formData :=
       {| DonationForm.title := js " Books";
          DonationForm.category := js "Education";
          DonationForm.description := js "School books";
          DonationForm.location := js "Mumbai" |} |}.

Definition rejected_with (c : jsstring) : Response unit :=
  {| data := None; error := Some {| code := c; message := js "rejected" |} |}.

Definition accepted : Response unit := {| data := None; error := None |}.

Definition blank_title_help_form : HelpRequestForm.State :=
  {| HelpRequestForm.loading := false;
     HelpRequestForm.formData :=
       {| HelpRequestForm.title := js "   ";
          HelpRequestForm.category := js "Clothing";
          HelpRequestForm.description := js "Size M";
          HelpRequestForm.location := js "Pune";
          HelpRequestForm.urgency := js "high" |} |}.

Definition blank_title_donation_form : DonationForm.State :=
  {| DonationForm.loading := false;
     DonationForm.formData :=
       {| DonationForm.title := [];
          DonationForm.category := js "Education";
          DonationForm.description := js "School books";
          DonationForm.location := js "Mumbai" |} |}.

Definition sample_request : HelpRequests.HelpRequest :=
  {| HelpRequests.id := js "r1";
     HelpRequests.title := js "Need a winter coat";
     HelpRequests.description := Some (js "size m");
     HelpRequests.category := js "Clothing";
     HelpRequests.location := None;
     HelpRequests.urgency := js "high";
     HelpRequests.created_at := js "2025-01-01T00:00:00Z";
     HelpRequests.user_id := js "u1" |}.

Definition other_request : HelpRequests.HelpRequest :=
  {| HelpRequests.id := js "r2";
     HelpRequests.title := js "maths tutoring";
     HelpRequests.description := None;
     HelpRequests.category := js "Education";
     HelpRequests.location := Some (js "Pune");
     HelpRequests.urgency := js "low";
     HelpRequests.created_at := js "2025-01-02T00:00:00Z";
     HelpRequests.user_id := js "u2" |}.

Definition sample_donation : Donations.Donation :=
  {| Donations.id := js "d1";
     Donations.title := js "school books";
     Donations.description := None;
     Donations.category := js "Education";
     Donations.location := Some (js "Mumbai");
     Donations.created_at := js "2025-01-03T00:00:00Z";
     Donations.user_id := js "u1" |}.

Definition named_profile : Profile := {| profile_id := js "u1"; full_name := Some (js "Asha") |}.
Definition empty_name_profile : Profile := {| profile_id := js "u1"; full_name := Some [] |}.

Definition rows_answer {A} (l : list A) : Response (list A) := {| data := Some l; error := None |}.

Definition failed_answer {A} : Response (list A) :=
  {| data := None; error := Some {| code := js "PGRST301"; message := js "failed" |} |}.

Definition idle_requests_page : HelpRequests.State :=
  {| Listing.searchQuery := []; Listing.selectedCategory := js "All";
     Listing.rows := []; Listing.loading := true; Listing.error_state := None |}.

Definition idle_donations_page : Donations.State :=
  {| Listing.searchQuery := []; Listing.selectedCategory := js "All";
     Listing.rows := []; Listing.loading := true; Listing.error_state := None |}.

Definition loaded_requests_page : HelpRequests.State :=
  {| Listing.searchQuery := []; Listing.selectedCategory := js "All";
     Listing.rows := [ {| Listing.row := sample_request; Listing.userName := js "Asha" |};
                       {| Listing.row := other_request; Listing.userName := Anonymous |} ];
     Listing.loading := false; Listing.error_state := None |}.

Definition loaded_donations_page : Donations.State :=
  {| Listing.searchQuery := []; Listing.selectedCategory := js "All";
     Listing.rows := [ {| Listing.row := sample_donation; Listing.userName := js "Asha" |} ];
     Listing.loading := false; Listing.error_state := None |}.

Definition coat : Profile.Donation :=
  {| Profile.d_id := js "d1"; Profile.d_title := js "Coat"; Profile.d_description := None;
     Profile.d_category := js "Clothing"; Profile.d_created_at := js "2025-01-01T00:00:00Z" |}.

Definition books : Profile.Donation :=
  {| Profile.d_id := js "d2"; Profile.d_title := js "Books"; Profile.d_description := Some (js "maths");
     Profile.d_category := js "Education"; Profile.d_created_at := js "2025-01-02T00:00:00Z" |}.

Definition tutoring : Profile.HelpRequest :=
  {| Profile.r_id := js "r1"; Profile.r_title := js "Tutoring"; Profile.r_description := None;
     Profile.r_category := js "Education"; Profile.r_urgency := js "low";
     Profile.r_created_at := js "2025-01-03T00:00:00Z" |}.

Definition my_profile_page : Profile.State :=
  {| Profile.donations := [coat; books; coat]; Profile.requests := [tutoring];
     Profile.loading := false; Profile.error_state := None |}.

Definition empty_profile_page : Profile.State :=
  {| Profile.donations := []; Profile.requests := [];
     Profile.loading := true; Profile.error_state := None |}.


(** ** Further page code *)

(** A handler that returns instead of throwing. *)
Definition completes {S A} (h : Handler S A) (s : S) : Prop :=
  exists a, fst (run h s) = Normal a.

(** [Boolean(e)] for [e : string | null]. *)
Definition truthy (e : option jsstring) : bool :=
  match e with
  | Some s => negb (JsString.falsy s)
  | None => false
  end.

(** *** What the listing pages render *)

Module ListingView.

(** The conditional blocks of the returned JSX, markup left out. *)
Inductive Block (Card : Type) :=
| ErrorBlock (message : jsstring)
| LoadingBlock (text : jsstring)
| GridBlock (cards : list Card)
| EmptyBlock (heading hint : jsstring).
Arguments ErrorBlock {Card} _.
Arguments LoadingBlock {Card} _.
Arguments GridBlock {Card} _.
Arguments EmptyBlock {Card} _ _.

Record Texts := {
  loading_text : jsstring;
  none_found : jsstring;
  be_first : jsstring;
}.

(** [{cond && block}] *)
Definition when {A} (cond : bool) (block : A) : list A :=
  if cond then [block] else [].

Section View.
Context {Row Card : Type} `{Listing.Columns Row}.
Variable txt : Texts.
Variable toLowerCase : jsstring -> jsstring.
Variable card : Listing.Named Row -> Card.

Definition render (st : Listing.State Row) : list (Block Card) :=
  let error := Listing.error_state st in
  let loading := Listing.loading st in
  let filtered := Listing.filteredRows toLowerCase st in
  when (truthy error) (ErrorBlock (default [] error)) ++
  when (loading && negb (truthy error)) (LoadingBlock (loading_text txt)) ++
  when (negb loading && negb (truthy error) && (0 <? length filtered)%nat)
       (GridBlock (map card filtered)) ++
  when (negb loading && negb (truthy error) && (length filtered =? 0)%nat)
       (EmptyBlock (none_found txt)
          (if (0 <? length (Listing.rows st))%nat
           then js "Try adjusting your search or filters"
           else be_first txt)).

End View.

End ListingView.

Module HelpRequestsView.

Record HelpRequestCardProps := {
  id : jsstring;
  title : jsstring;
  description : jsstring;
  category : jsstring;
  location : jsstring;
  userName : jsstring;
  urgency : jsstring;
  createdAt : jsstring;
}.

(** The props of one [HelpRequestCard]; [formatDistanceToNow] is the date
    library's rendering of [created_at] at the time of the render. *)
Definition card (formatDistanceToNow : jsstring -> jsstring)
    (request : Listing.Named HelpRequests.HelpRequest) : HelpRequestCardProps :=
  let r := Listing.row request in
  {| id := HelpRequests.id r;
     title := HelpRequests.title r;
     description := or_default (HelpRequests.description r) [];
     category := HelpRequests.category r;
     location := or_default (HelpRequests.location r) (js "Not specified");
     userName := Listing.userName request;
     urgency := HelpRequests.urgency r;
     createdAt := formatDistanceToNow (HelpRequests.created_at r) |}.

Definition texts : ListingView.Texts :=
  {| ListingView.loading_text := js "Loading help requests...";
     ListingView.none_found := js "No help requests found";
     ListingView.be_first := js "Be the first to submit a request!" |}.

Definition render (formatDistanceToNow toLowerCase : jsstring -> jsstring) :=
  ListingView.render (Row := HelpRequests.HelpRequest) texts toLowerCase (card formatDistanceToNow).

End HelpRequestsView.

Module DonationsView.

Record DonationCardProps := {
  id : jsstring;
  title : jsstring;
  description : jsstring;
  category : jsstring;
  location : jsstring;
  userName : jsstring;
  createdAt : jsstring;
}.

Definition card (formatDistanceToNow : jsstring -> jsstring)
    (donation : Listing.Named Donations.Donation) : DonationCardProps :=
  let d := Listing.row donation in
  {| id := Donations.id d;
     title := Donations.title d;
     description := or_default (Donations.description d) [];
     category := Donations.category d;
     location := or_default (Donations.location d) (js "Not specified");
     userName := Listing.userName donation;
     createdAt := formatDistanceToNow (Donations.created_at d) |}.

Definition texts : ListingView.Texts :=
  {| ListingView.loading_text := js "Loading donations...";
     ListingView.none_found := js "No donations found";
     ListingView.be_first := js "Be the first to offer a donation!" |}.

Definition render (formatDistanceToNow toLowerCase : jsstring -> jsstring) :=
  ListingView.render (Row := Donations.Donation) texts toLowerCase (card formatDistanceToNow).

End DonationsView.

(** *** More of the Profile page *)

Module ProfilePage.

(** [useEffect(() => { ... }, [user, authLoading, navigate])] *)
Definition onAuthChange (authLoading : bool) (user : option User)
    (donationsAnswer : Awaited (Response (list Profile.Donation)))
    (requestsAnswer : Awaited (Response (list Profile.HelpRequest)))
    : Handler Profile.State unit :=
  if negb authLoading && negb (bool_decide (is_Some user)) then
    navigate (js "/login")
  else
    match user with
    | Some _ => Profile.fetchUserData user donationsAnswer requestsAnswer
    | None => ret tt
    end.

(** The value of a property read on an object literal with string
    values: [undefined], one of its strings, or a member inherited from
    [Object.prototype]. *)
Inductive JsValue :=
| Undefined
| Str (s : jsstring)
| Inherited (name : jsstring).

Definition value_truthy (v : JsValue) : bool :=
  match v with
  | Undefined => false
  | Str s => negb (JsString.falsy s)
  | Inherited _ => true
  end.

(** [a || b] *)
Definition value_or (a b : JsValue) : JsValue :=
  if value_truthy a then a else b.

(** The property names of [Object.prototype]. *)
Definition object_prototype_keys : list jsstring :=
  [ js "constructor"; js "hasOwnProperty"; js "isPrototypeOf"; js "propertyIsEnumerable";
    js "toLocaleString"; js "toString"; js "valueOf"; js "__proto__";
    js "__defineGetter__"; js "__defineSetter__"; js "__lookupGetter__"; js "__lookupSetter__" ].

Definition colors : gmap (list N) (list N) :=
  list_to_map
    [ (js "Clothing", js "bg-blue-100 text-blue-700");
      (js "Electronics", js "bg-purple-100 text-purple-700");
      (js "Education", js "bg-green-100 text-green-700");
      (js "Food", js "bg-orange-100 text-orange-700");
      (js "Services", js "bg-pink-100 text-pink-700");
      (js "Other", js "bg-gray-100 text-gray-700") ].

(** [obj[key]] *)
Definition get (obj : gmap (list N) (list N)) (key : jsstring) : JsValue :=
  match obj !! key with
  | Some v => Str v
  | None => if decide (key ∈ object_prototype_keys) then Inherited key else Undefined
  end.

(** [colors[cat] || colors.Other] *)
Definition getCategoryColor (cat : jsstring) : JsValue :=
  value_or (get colors cat) (get colors (js "Other")).

(** The body of [handleDeleteDonation] as a closure over the [donations]
    of the render it was created in. *)
Definition deleteDonation_closure (donations : list Profile.Donation) (id : jsstring)
    (answer : Awaited (Response unit)) : Handler Profile.State unit :=
  try_catch
    (res <- send (DeleteById (js "donations") id) answer ;;
     match error res with
     | Some error =>
         (if code error === js "42501" then
            toast_error Profile.donation_permission_denied
          else
            toast_error Profile.donation_delete_failed) ;;;
         console_error (js "Delete donation error:")
     | None =>
         Profile.setDonations (List.filter (fun d => negb (Profile.d_id d === id)) donations) ;;;
         toast_success (js "Donation deleted successfully")
     end)
    (fun err =>
       toast_error (js "An unexpected error occurred") ;;;
       console_error (js "Unexpected delete error:")).

(** The body of [handleDeleteRequest], likewise. *)
Definition deleteRequest_closure (requests : list Profile.HelpRequest) (id : jsstring)
    (answer : Awaited (Response unit)) : Handler Profile.State unit :=
  try_catch
    (res <- send (DeleteById (js "help_requests") id) answer ;;
     match error res with
     | Some error =>
         (if code error === js "42501" then
            toast_error Profile.request_permission_denied
          else
            toast_error Profile.request_delete_failed) ;;;
         console_error (js "Delete request error:")
     | None =>
         Profile.setRequests (List.filter (fun r => negb (Profile.r_id r === id)) requests) ;;;
         toast_success (js "Request deleted successfully")
     end)
    (fun err =>
       toast_error (js "An unexpected error occurred") ;;;
       console_error (js "Unexpected delete error:")).

End ProfilePage.

(** ** More specification-side notions *)

(** The requests among the effects. *)
Fixpoint requests_sent (ev : list Event) : list Request :=
  match ev with
  | [] => []
  | Sent q :: ev' => q :: requests_sent ev'
  | _ :: ev' => requests_sent ev'
  end.

(** No whitespace at either end. *)
Definition trimmed (s : jsstring) : Prop :=
  (forall c r, s = c :: r -> JsString.is_space c = false) /\
  (forall r c, s = r ++ [c] -> JsString.is_space c = false).

(** ** More sample inputs *)

Definition failed_requests_page : HelpRequests.State :=
  {| Listing.searchQuery := js "coat"; Listing.selectedCategory := js "Clothing";
     Listing.rows := [ {| Listing.row := sample_request; Listing.userName := js "Asha" |} ];
     Listing.loading := false;
     Listing.error_state := Some (js "Failed to load help requests. Please try again.") |}.

Definition searching_requests_page (q c : jsstring) : HelpRequests.State :=
  {| Listing.searchQuery := q; Listing.selectedCategory := c;
     Listing.rows := [ {| Listing.row := sample_request; Listing.userName := js "Asha" |};
                       {| Listing.row := other_request; Listing.userName := Anonymous |} ];
     Listing.loading := false; Listing.error_state := None |}.

Definition searching_donations_page (q c : jsstring) : Donations.State :=
  {| Listing.searchQuery := q; Listing.selectedCategory := c;
     Listing.rows := [ {| Listing.row := sample_donation; Listing.userName := js "Asha" |} ];
     Listing.loading := false; Listing.error_state := None |}.

Definition absent_name_profile : Profile := {| profile_id := js "u2"; full_name := None |}.

Definition distinct_profile_page : Profile.State :=
  {| Profile.donations := [coat; books]; Profile.requests := [tutoring];
     Profile.loading := false; Profile.error_state := None |}.

(** * Properties *)

(** ** Strings *)

Section JsStringFacts.
Import JsString.

Lemma falsy_true (s : list N) : falsy s = true <-> s = [].
Proof. destruct s; simpl; split; congruence. Qed.

Lemma falsy_false (s : list N) : falsy s = false <-> s <> [].
Proof. destruct s; simpl; split; congruence. Qed.

Lemma eqb_true (a b : list N) : (a === b) = true <-> a = b.
Proof. unfold eqb. apply bool_decide_eq_true. Qed.

Lemma eqb_false (a b : list N) : (a === b) = false <-> a <> b.
Proof. unfold eqb. apply bool_decide_eq_false. Qed.

Lemma eqb_refl (a : list N) : (a === a) = true.
Proof. by apply eqb_true. Qed.

Lemma trimStart_nil (s : list N) : trimStart s = [] <-> blank s.
Proof.
  unfold blank. induction s as [|c r IH]; simpl.
  - split; [constructor | done].
  - destruct (is_space c) eqn:E.
    + rewrite IH. split; [by constructor | by inversion 1].
    + split; [done | inversion 1; congruence].
Qed.

Lemma trimStart_head (s : list N) c r : trimStart s = c :: r -> is_space c = false.
Proof.
  induction s as [|d s IH]; simpl; [done |].
  destruct (is_space d) eqn:E; [done | congruence].
Qed.

Lemma trimStart_idem (s : list N) : trimStart (trimStart s) = trimStart s.
Proof.
  destruct (trimStart s) as [|c r] eqn:E; [done |].
  simpl. by rewrite (trimStart_head _ _ _ E).
Qed.

(** [s.trim()] is empty exactly for the empty and the whitespace-only strings. *)
Lemma trim_nil (s : list N) : trim s = [] <-> blank s.
Proof.
  unfold trim, trimEnd. split.
  - intros E. apply (f_equal (@rev N)) in E. rewrite rev_involutive in E. simpl in E.
    apply trimStart_nil in E. unfold blank in E.
    apply Forall_rev in E. rewrite rev_involutive in E.
    fold (blank (trimStart s)) in E.
    apply trimStart_nil in E. rewrite trimStart_idem in E. by apply trimStart_nil.
  - intros B. apply trimStart_nil in B. by rewrite B.
Qed.

Lemma startsWith_spec (s sub : list N) :
  startsWith s sub = true <-> exists post, s = sub ++ post.
Proof.
  revert s. induction sub as [|c sub IH]; intros s; simpl.
  - split; [intros _; by exists s | done].
  - destruct s as [|d s].
    + split; [discriminate | intros [post E]; discriminate].
    + rewrite andb_true_iff, N.eqb_eq, IH. split.
      * intros [-> [post ->]]. by exists post.
      * intros [post E]. injection E as -> ->. split; [done | by exists post].
Qed.

(** [includes] decides the substring relation. *)
Lemma includes_spec (s sub : list N) :
  includes s sub = true <-> substring sub s.
Proof.
  unfold substring. induction s as [|d s IH]; simpl.
  - rewrite orb_false_r, startsWith_spec. split.
    + intros [post E]. by exists [], post.
    + intros ([|? ?] & post & E); [by exists post | discriminate].
  - rewrite orb_true_iff, startsWith_spec, IH. split.
    + intros [[post E] | (pre & post & E)].
      * by exists [], post.
      * exists (d :: pre), post. by rewrite E.
    + intros ([|c pre] & post & E).
      * left. by exists post.
      * right. injection E as -> ->. by exists pre, post.
Qed.

Lemma includes_nil (s : list N) : includes s [] = true.
Proof. apply includes_spec. by exists [], s. Qed.

Example trim_strips_both_ends : trim (js "  Winter coat ") = js "Winter coat".
Proof. reflexivity. Qed.

Example trim_of_whitespace : trim [9; 32; 160; 8232; 10]%N = [].
Proof. reflexivity. Qed.

Example includes_ignoring_case :
  includes (ascii_toLowerCase (js "Need a Winter Coat")) (ascii_toLowerCase (js "WINTER")) = true.
Proof. reflexivity. Qed.

Example includes_misses : includes (js "coat") (js "boat") = false.
Proof. reflexivity. Qed.

End JsStringFacts.

(** ** Running handlers *)

Ltac unfold_handler :=
  unfold effects, final, run, try_catch_finally, try_catch, send, send_all, await,
         toast_error, toast_success, navigate, console_error,
         bind, ret, throw, emit, setState, getState in *.

Lemma falsy_trim_true s : JsString.falsy (JsString.trim s) = true <-> JsString.blank s.
Proof. by rewrite falsy_true, trim_nil. Qed.

Lemma falsy_trim_false s : JsString.falsy (JsString.trim s) = false <-> ~ JsString.blank s.
Proof. rewrite <- falsy_trim_true. by destruct (JsString.falsy _). Qed.

(** Case analysis on the field checks of a submit handler, each outcome
    restated on the specification side. *)
Ltac field_checks :=
  repeat match goal with
  | |- context [JsString.falsy ?s] => destruct (JsString.falsy s) eqn:?
  end;
  repeat match goal with
  | H : JsString.falsy (JsString.trim _) = true |- _ => apply falsy_trim_true in H
  | H : JsString.falsy (JsString.trim _) = false |- _ => apply falsy_trim_false in H
  | H : JsString.falsy _ = true |- _ => apply falsy_true in H
  | H : JsString.falsy _ = false |- _ => apply falsy_false in H
  end.

Lemma blank_dec s : JsString.blank s \/ ~ JsString.blank s.
Proof.
  destruct (JsString.falsy (JsString.trim s)) eqn:E;
    [left; by apply falsy_trim_true | right; by apply falsy_trim_false].
Qed.

Lemma nil_dec (s : list N) : s = [] \/ s <> [].
Proof. destruct s; [by left | by right]. Qed.

(** Membership of an event in an explicit list of effects. *)
Ltac in_effects H :=
  apply list_elem_of_In in H; simpl in H;
  repeat match type of H with
         | _ \/ _ => destruct H as [H | H]
         end;
  try discriminate; try contradiction; try (by injection H as <-).

Section HelpRequestFormFacts.
Import HelpRequestForm.
Variables (insert : HelpRequestInsert -> Awaited (Response unit)) (st : State).

Lemma help_submit_signed_out :
  effects (handleSubmit None insert) st =
    [ToastError (js "Please sign in to submit a help request"); Navigate (js "/login")].
Proof. reflexivity. Qed.

Lemma help_submit_blocked_at (u : User) :
  incomplete (formData st) ->
  exists msg, msg ∈ validation_messages /\
    effects (handleSubmit (Some u) insert) st = [ToastError msg].
Proof.
  unfold handleSubmit, incomplete, validation_messages. unfold_handler. cbn.
  intros Hinc. field_checks; try tauto;
    (eexists; split; [ | reflexivity]; apply list_elem_of_In; simpl; tauto).
Qed.

Lemma help_submit_rejected_at (u : User) res e :
  ~ incomplete (formData st) ->
  insert (insert_row u (formData st)) = Resolved res -> error res = Some e ->
  effects (handleSubmit (Some u) insert) st =
    [ Sent (InsertHelpRequest (insert_row u (formData st)));
      ToastError (if code e === js "23503" then profile_not_found
                  else if code e === js "42501" then permission_denied
                  else generic_failure);
      ConsoleError (js "Help request error:") ].
Proof.
  unfold handleSubmit, setLoading, incomplete. unfold_handler. cbn.
  intros Hc Hr He. field_checks; try tauto.
  rewrite Hr. cbn. rewrite He.
  destruct (code e === js "23503"); [reflexivity |].
  destruct (code e === js "42501"); reflexivity.
Qed.

Lemma help_submit_accepted_at (u : User) res :
  ~ incomplete (formData st) ->
  insert (insert_row u (formData st)) = Resolved res -> error res = None ->
  effects (handleSubmit (Some u) insert) st =
    [ Sent (InsertHelpRequest (insert_row u (formData st)));
      ToastSuccess (js "Help request submitted successfully!");
      Navigate success_route ].
Proof.
  unfold handleSubmit, setLoading, incomplete. unfold_handler. cbn.
  intros Hc Hr He. field_checks; try tauto.
  rewrite Hr. cbn. by rewrite He.
Qed.

Lemma help_submit_exception_at (u : User) reason :
  ~ incomplete (formData st) ->
  insert (insert_row u (formData st)) = Rejected reason ->
  effects (handleSubmit (Some u) insert) st =
    [ Sent (InsertHelpRequest (insert_row u (formData st)));
      ToastError (js "An unexpected error occurred. Please try again.");
      ConsoleError (js "Unexpected error:") ].
Proof.
  unfold handleSubmit, setLoading, incomplete. unfold_handler. cbn.
  intros Hc Hr. field_checks; try tauto.
  by rewrite Hr.
Qed.

Lemma help_incomplete_dec : incomplete (formData st) \/ ~ incomplete (formData st).
Proof.
  unfold incomplete.
  destruct (blank_dec (title (formData st))), (blank_dec (description (formData st))),
    (blank_dec (location (formData st))), (nil_dec (category (formData st))),
    (nil_dec (urgency (formData st))); tauto.
Qed.

(** An insert appears among the effects only for a signed-in user and a
    complete form, and it carries [insert_row]. *)
Lemma help_submit_sent (user : option User) row :
  Sent (InsertHelpRequest row) ∈ effects (handleSubmit user insert) st ->
  exists u', user = Some u' /\ ~ incomplete (formData st)
             /\ row = insert_row u' (formData st).
Proof.
  intros Hin. destruct user as [u'|].
  - destruct help_incomplete_dec as [Hi | Hc].
    + destruct (help_submit_blocked_at u' Hi) as (msg & _ & E).
      rewrite E in Hin. in_effects Hin.
    + exists u'. split; [done | split; [done |]].
      destruct (insert (insert_row u' (formData st))) as [res | reason] eqn:Hr.
      * destruct (error res) as [e|] eqn:He.
        -- rewrite (help_submit_rejected_at u' res e Hc Hr He) in Hin. in_effects Hin.
        -- rewrite (help_submit_accepted_at u' res Hc Hr He) in Hin. in_effects Hin.
      * rewrite (help_submit_exception_at u' reason Hc Hr) in Hin. in_effects Hin.
  - rewrite help_submit_signed_out in Hin. in_effects Hin.
Qed.

(** For a signed-in user and a complete form the insert is sent. *)
Lemma help_submit_sends (u : User) :
  ~ incomplete (formData st) ->
  Sent (InsertHelpRequest (insert_row u (formData st))) ∈ effects (handleSubmit (Some u) insert) st.
Proof.
  intros Hc.
  destruct (insert (insert_row u (formData st))) as [res | reason] eqn:Hr.
  - destruct (error res) as [e|] eqn:He.
    + rewrite (help_submit_rejected_at u res e Hc Hr He). constructor.
    + rewrite (help_submit_accepted_at u res Hc Hr He). constructor.
  - rewrite (help_submit_exception_at u reason Hc Hr). constructor.
Qed.

End HelpRequestFormFacts.

Section DonationFormFacts.
Import DonationForm.
Variables (insert : DonationInsert -> Awaited (Response unit)) (st : State).

Lemma donation_submit_signed_out :
  effects (handleSubmit None insert) st =
    [ToastError (js "Please sign in to submit a donation"); Navigate (js "/login")].
Proof. reflexivity. Qed.

Lemma donation_submit_blocked_at (u : User) :
  incomplete (formData st) ->
  exists msg, msg ∈ validation_messages /\
    effects (handleSubmit (Some u) insert) st = [ToastError msg].
Proof.
  unfold handleSubmit, incomplete, validation_messages. unfold_handler. cbn.
  intros Hinc. field_checks; try tauto;
    (eexists; split; [ | reflexivity]; apply list_elem_of_In; simpl; tauto).
Qed.

Lemma donation_submit_rejected_at (u : User) res e :
  ~ incomplete (formData st) ->
  insert (insert_row u (formData st)) = Resolved res -> error res = Some e ->
  effects (handleSubmit (Some u) insert) st =
    [ Sent (InsertDonation (insert_row u (formData st)));
      ToastError (if code e === js "23503" then profile_not_found
                  else if code e === js "42501" then permission_denied
                  else generic_failure);
      ConsoleError (js "Donation error:") ].
Proof.
  unfold handleSubmit, setLoading, incomplete. unfold_handler. cbn.
  intros Hc Hr He. field_checks; try tauto.
  rewrite Hr. cbn. rewrite He.
  destruct (code e === js "23503"); [reflexivity |].
  destruct (code e === js "42501"); reflexivity.
Qed.

Lemma donation_submit_accepted_at (u : User) res :
  ~ incomplete (formData st) ->
  insert (insert_row u (formData st)) = Resolved res -> error res = None ->
  effects (handleSubmit (Some u) insert) st =
    [ Sent (InsertDonation (insert_row u (formData st)));
      ToastSuccess (js "Donation submitted successfully!");
      Navigate success_route ].
Proof.
  unfold handleSubmit, setLoading, incomplete. unfold_handler. cbn.
  intros Hc Hr He. field_checks; try tauto.
  rewrite Hr. cbn. by rewrite He.
Qed.

Lemma donation_submit_exception_at (u : User) reason :
  ~ incomplete (formData st) ->
  insert (insert_row u (formData st)) = Rejected reason ->
  effects (handleSubmit (Some u) insert) st =
    [ Sent (InsertDonation (insert_row u (formData st)));
      ToastError (js "An unexpected error occurred. Please try again.");
      ConsoleError (js "Unexpected error:") ].
Proof.
  unfold handleSubmit, setLoading, incomplete. unfold_handler. cbn.
  intros Hc Hr. field_checks; try tauto.
  by rewrite Hr.
Qed.

Lemma donation_incomplete_dec : incomplete (formData st) \/ ~ incomplete (formData st).
Proof.
  unfold incomplete.
  destruct (blank_dec (title (formData st))), (blank_dec (description (formData st))),
    (blank_dec (location (formData st))), (nil_dec (category (formData st))); tauto.
Qed.

(** An insert appears among the effects only for a signed-in user and a
    complete form, and it carries [insert_row]. *)
Lemma donation_submit_sent (user : option User) row :
  Sent (InsertDonation row) ∈ effects (handleSubmit user insert) st ->
  exists u', user = Some u' /\ ~ incomplete (formData st)
             /\ row = insert_row u' (formData st).
Proof.
  intros Hin. destruct user as [u'|].
  - destruct donation_incomplete_dec as [Hi | Hc].
    + destruct (donation_submit_blocked_at u' Hi) as (msg & _ & E).
      rewrite E in Hin. in_effects Hin.
    + exists u'. split; [done | split; [done |]].
      destruct (insert (insert_row u' (formData st))) as [res | reason] eqn:Hr.
      * destruct (error res) as [e|] eqn:He.
        -- rewrite (donation_submit_rejected_at u' res e Hc Hr He) in Hin. in_effects Hin.
        -- rewrite (donation_submit_accepted_at u' res Hc Hr He) in Hin. in_effects Hin.
      * rewrite (donation_submit_exception_at u' reason Hc Hr) in Hin. in_effects Hin.
  - rewrite donation_submit_signed_out in Hin. in_effects Hin.
Qed.

(** For a signed-in user and a complete form the insert is sent. *)
Lemma donation_submit_sends (u : User) :
  ~ incomplete (formData st) ->
  Sent (InsertDonation (insert_row u (formData st))) ∈ effects (handleSubmit (Some u) insert) st.
Proof.
  intros Hc.
  destruct (insert (insert_row u (formData st))) as [res | reason] eqn:Hr.
  - destruct (error res) as [e|] eqn:He.
    + rewrite (donation_submit_rejected_at u res e Hc Hr He). constructor.
    + rewrite (donation_submit_accepted_at u res Hc Hr He). constructor.
  - rewrite (donation_submit_exception_at u reason Hc Hr). constructor.
Qed.

End DonationFormFacts.

Example help_submit_trims :
  effects (HelpRequestForm.handleSubmit (Some sample_user) (fun _ => Resolved accepted))
          sample_help_form
  = [ Sent (InsertHelpRequest
              {| hri_user_id := js "u1"; hri_title := js "Winter coat";
                 hri_description := js "Size M"; hri_category := js "Clothing";
                 hri_location := js "Pune"; hri_urgency := js "high" |});
      ToastSuccess (js "Help request submitted successfully!");
      Navigate (js "/request-success") ].
Proof. reflexivity. Qed.

Example donation_submit_blank_title :
  effects (DonationForm.handleSubmit (Some sample_user) (fun _ => Resolved accepted))
          blank_title_donation_form
  = [ ToastError (js "Please enter a title") ].
Proof. reflexivity. Qed.

(** ** Submit flow *)

(** C1: when an insert issued by either submit handler is rejected by the
    backend, the toast shown is fixed by the error code alone: "23503"
    gives the profile-not-found message, "42501" the permission-denied
    message and every other code the generic failure message, and nothing
    is navigated to; when the insert succeeds the handler navigates to the
    confirmation route. *)
Theorem insert_rejection_message_by_code :
  (forall user insert (st : HelpRequestForm.State) row res,
      let ev := effects (HelpRequestForm.handleSubmit user insert) st in
      Sent (InsertHelpRequest row) ∈ ev -> insert row = Resolved res ->
      (forall e, error res = Some e ->
         (code e = js "23503" ->
            List.filter is_toast ev = [ToastError HelpRequestForm.profile_not_found]) /\
         (code e = js "42501" ->
            List.filter is_toast ev = [ToastError HelpRequestForm.permission_denied]) /\
         (code e <> js "23503" -> code e <> js "42501" ->
            List.filter is_toast ev = [ToastError HelpRequestForm.generic_failure]) /\
         List.filter is_navigate ev = []) /\
      (error res = None ->
         List.filter is_navigate ev = [Navigate HelpRequestForm.success_route]))
  /\
  (forall user insert (st : DonationForm.State) row res,
      let ev := effects (DonationForm.handleSubmit user insert) st in
      Sent (InsertDonation row) ∈ ev -> insert row = Resolved res ->
      (forall e, error res = Some e ->
         (code e = js "23503" ->
            List.filter is_toast ev = [ToastError DonationForm.profile_not_found]) /\
         (code e = js "42501" ->
            List.filter is_toast ev = [ToastError DonationForm.permission_denied]) /\
         (code e <> js "23503" -> code e <> js "42501" ->
            List.filter is_toast ev = [ToastError DonationForm.generic_failure]) /\
         List.filter is_navigate ev = []) /\
      (error res = None ->
         List.filter is_navigate ev = [Navigate DonationForm.success_route])).
Proof.
  split; intros user insert st row res ev Hin Hr.
  - destruct (help_submit_sent _ _ _ _ Hin) as (u & -> & Hc & ->).
    split.
    + intros e He. subst ev. rewrite (help_submit_rejected_at _ _ u res e Hc Hr He).
      repeat split.
      * intros ->. reflexivity.
      * intros ->. reflexivity.
      * intros N1 N2. apply eqb_false in N1, N2. by rewrite N1, N2.
    + intros He. subst ev. by rewrite (help_submit_accepted_at _ _ u res Hc Hr He).
  - destruct (donation_submit_sent _ _ _ _ Hin) as (u & -> & Hc & ->).
    split.
    + intros e He. subst ev. rewrite (donation_submit_rejected_at _ _ u res e Hc Hr He).
      repeat split.
      * intros ->. reflexivity.
      * intros ->. reflexivity.
      * intros N1 N2. apply eqb_false in N1, N2. by rewrite N1, N2.
    + intros He. subst ev. by rewrite (donation_submit_accepted_at _ _ u res Hc Hr He).
Qed.

Lemma insert_rejection_message_by_code_witness :
  List.filter is_toast
    (effects (HelpRequestForm.handleSubmit (Some sample_user)
                (fun _ => Resolved (rejected_with (js "23503")))) sample_help_form)
    = [ToastError HelpRequestForm.profile_not_found]
  /\
  List.filter is_navigate
    (effects (DonationForm.handleSubmit (Some sample_user)
                (fun _ => Resolved accepted)) sample_donation_form)
    = [Navigate DonationForm.success_route].
Proof.
  split.
  - refine (proj1 (proj1 (proj1 insert_rejection_message_by_code
             (Some sample_user) (fun _ => Resolved (rejected_with (js "23503")))
             sample_help_form
             (HelpRequestForm.insert_row sample_user (HelpRequestForm.formData sample_help_form))
             (rejected_with (js "23503")) _ eq_refl) _ eq_refl) eq_refl).
    vm_compute. constructor.
  - refine (proj2 (proj2 insert_rejection_message_by_code
             (Some sample_user) (fun _ => Resolved accepted)
             sample_donation_form
             (DonationForm.insert_row sample_user (DonationForm.formData sample_donation_form))
             accepted _ eq_refl) eq_refl).
    vm_compute. constructor.
Defined.

(** C4: a form with a required field that is empty after trimming (or
    with no category, or for help requests no urgency, selected) makes the
    submit handler show a validation message and send no insert; an insert
    is sent only for a form whose required fields are all non-empty after
    trimming, and it carries the trimmed title, description and location.
    (The message is one of the field checks' for a signed-in user; signed
    out, the handler asks to sign in instead, and sends no insert either.) *)
Theorem submit_blocked_until_complete :
  (forall user insert (st : HelpRequestForm.State),
     let fd := HelpRequestForm.formData st in
     let ev := effects (HelpRequestForm.handleSubmit user insert) st in
     (HelpRequestForm.incomplete fd ->
        Forall (fun e => is_insert e = false) ev /\
        exists msg, List.filter is_toast ev = [ToastError msg] /\
                    (forall u, user = Some u -> msg ∈ HelpRequestForm.validation_messages)) /\
     (forall row, Sent (InsertHelpRequest row) ∈ ev ->
        ~ HelpRequestForm.incomplete fd /\
        hri_title row = JsString.trim (HelpRequestForm.title fd) /\
        hri_description row = JsString.trim (HelpRequestForm.description fd) /\
        hri_location row = JsString.trim (HelpRequestForm.location fd)) /\
     (forall u, user = Some u -> ~ HelpRequestForm.incomplete fd ->
        Sent (InsertHelpRequest (HelpRequestForm.insert_row u fd)) ∈ ev))
  /\
  (forall user insert (st : DonationForm.State),
     let fd := DonationForm.formData st in
     let ev := effects (DonationForm.handleSubmit user insert) st in
     (DonationForm.incomplete fd ->
        Forall (fun e => is_insert e = false) ev /\
        exists msg, List.filter is_toast ev = [ToastError msg] /\
                    (forall u, user = Some u -> msg ∈ DonationForm.validation_messages)) /\
     (forall row, Sent (InsertDonation row) ∈ ev ->
        ~ DonationForm.incomplete fd /\
        di_title row = JsString.trim (DonationForm.title fd) /\
        di_description row = JsString.trim (DonationForm.description fd) /\
        di_location row = JsString.trim (DonationForm.location fd)) /\
     (forall u, user = Some u -> ~ DonationForm.incomplete fd ->
        Sent (InsertDonation (DonationForm.insert_row u fd)) ∈ ev)).
Proof.
  split; intros user insert st fd ev; (split; [| split]).
  - intros Hi. destruct user as [u|].
    + destruct (help_submit_blocked_at insert st u Hi) as (msg & Hm & E).
      subst ev. rewrite E. split; [by repeat constructor |].
      by exists msg.
    + split; [by repeat constructor |].
      eexists. split; [reflexivity | discriminate].
  - intros row Hin.
    destruct (help_submit_sent _ _ _ _ Hin) as (u & -> & Hc & ->). by repeat split.
  - intros u -> Hc. by apply help_submit_sends.
  - intros Hi. destruct user as [u|].
    + destruct (donation_submit_blocked_at insert st u Hi) as (msg & Hm & E).
      subst ev. rewrite E. split; [by repeat constructor |].
      by exists msg.
    + split; [by repeat constructor |].
      eexists. split; [reflexivity | discriminate].
  - intros row Hin.
    destruct (donation_submit_sent _ _ _ _ Hin) as (u & -> & Hc & ->). by repeat split.
  - intros u -> Hc. by apply donation_submit_sends.
Qed.

Lemma submit_blocked_until_complete_witness :
  Forall (fun e => is_insert e = false)
    (effects (HelpRequestForm.handleSubmit (Some sample_user)
                (fun _ => Resolved accepted)) blank_title_help_form)
  /\
  hri_title (HelpRequestForm.insert_row sample_user (HelpRequestForm.formData sample_help_form))
    = js "Winter coat"
  /\
  Forall (fun e => is_insert e = false)
    (effects (DonationForm.handleSubmit (Some sample_user)
                (fun _ => Resolved accepted)) blank_title_donation_form)
  /\
  di_location (DonationForm.insert_row sample_user (DonationForm.formData sample_donation_form))
    = js "Mumbai".
Proof.
  split; [| split; [| split]].
  - refine (proj1 (proj1 (proj1 submit_blocked_until_complete
              (Some sample_user) (fun _ => Resolved accepted) blank_title_help_form) _)).
    left. unfold JsString.blank. vm_compute. by repeat constructor.
  - transitivity (JsString.trim (HelpRequestForm.title (HelpRequestForm.formData sample_help_form)));
      [| by vm_compute].
    refine (proj1 (proj2 (proj1 (proj2 (proj1 submit_blocked_until_complete
              (Some sample_user) (fun _ => Resolved accepted) sample_help_form)) _ _))).
    vm_compute. constructor.
  - refine (proj1 (proj1 (proj2 submit_blocked_until_complete
              (Some sample_user) (fun _ => Resolved accepted) blank_title_donation_form) _)).
    left. constructor.
  - transitivity (JsString.trim (DonationForm.location (DonationForm.formData sample_donation_form)));
      [| by vm_compute].
    refine (proj2 (proj2 (proj2 (proj1 (proj2 (proj2 submit_blocked_until_complete
              (Some sample_user) (fun _ => Resolved accepted) sample_donation_form)) _ _)))).
    vm_compute. constructor.
Defined.

(** ** Sets and maps of the list flow *)

Lemma foldl_set_add_elem (acc xs : list (list N)) x :
  x ∈ foldl set_add acc xs <-> x ∈ acc \/ x ∈ xs.
Proof.
  revert acc. induction xs as [|y xs IH]; intros acc; simpl.
  - rewrite elem_of_nil. tauto.
  - rewrite IH, elem_of_cons. unfold set_add. destruct (decide (y ∈ acc)) as [Hy|Hy].
    + split; [tauto |]. intros [? | [-> | ?]]; tauto.
    + rewrite elem_of_app, list_elem_of_singleton. tauto.
Qed.

Lemma foldl_set_add_NoDup (acc xs : list (list N)) :
  NoDup acc -> NoDup (foldl set_add acc xs).
Proof.
  revert acc. induction xs as [|y xs IH]; intros acc Hnd; simpl; [done |].
  apply IH. unfold set_add. destruct (decide (y ∈ acc)) as [Hy|Hy]; [done |].
  apply NoDup_app. split; [done |]. split.
  - intros z Hz ->%list_elem_of_singleton. done.
  - apply NoDup_singleton.
Qed.

Lemma set_spread_elem (xs : list (list N)) x : x ∈ set_spread xs <-> x ∈ xs.
Proof. unfold set_spread. rewrite foldl_set_add_elem, elem_of_nil. tauto. Qed.

Lemma set_spread_NoDup (xs : list (list N)) : NoDup (set_spread xs).
Proof. apply foldl_set_add_NoDup, NoDup_nil_2. Qed.

Lemma set_spread_nil (xs : list (list N)) : set_spread xs = [] <-> xs = [].
Proof.
  split; [| by intros ->].
  intros E. destruct xs as [|x xs]; [done |].
  assert (x ∈ set_spread (x :: xs)) as Hx by (apply set_spread_elem; left).
  rewrite E in Hx. by apply elem_of_nil in Hx.
Qed.

Lemma foldl_profileMap_set_lookup (ps : list Profile) (m : gmap (list N) (list N)) k :
  foldl profileMap_set m ps !! k =
    match lookup_full_name ps k with
    | Some fn => Some (or_default fn Anonymous)
    | None => m !! k
    end.
Proof.
  revert m. induction ps as [|p ps IH]; intros m; simpl; [done |].
  rewrite IH. destruct (lookup_full_name ps k) as [fn|]; [done |].
  unfold profileMap_set. destruct (decide (profile_id p = k)) as [<- | Hne].
  - by rewrite lookup_insert_eq.
  - by rewrite lookup_insert_ne.
Qed.

Lemma build_profileMap_lookup (ps : list Profile) k :
  build_profileMap (Some ps) !! k = (fun fn => or_default fn Anonymous) <$> lookup_full_name ps k.
Proof.
  simpl. rewrite foldl_profileMap_set_lookup, lookup_empty.
  by destruct (lookup_full_name ps k).
Qed.

(** What the merge shows for a user id. *)
Lemma merged_name (ps : list Profile) k :
  or_default (build_profileMap (Some ps) !! k) Anonymous = display_name ps k.
Proof.
  rewrite build_profileMap_lookup. unfold display_name.
  destruct (lookup_full_name ps k) as [[[|c n]|]|]; reflexivity.
Qed.

Lemma lookup_full_name_None (ps : list Profile) k :
  lookup_full_name ps k = None <-> forall p, p ∈ ps -> profile_id p <> k.
Proof.
  induction ps as [|p ps IH]; simpl.
  - split; [intros _ p Hp; by apply elem_of_nil in Hp | done].
  - destruct (lookup_full_name ps k) as [fn|] eqn:E.
    + split; [done |]. intros Hall.
      assert (Some fn = None) as Habs; [| done].
      apply IH. intros q Hq. apply Hall. by right.
    + destruct (decide (profile_id p = k)) as [Hk | Hk].
      * split; [done |]. intros Hall. exfalso. apply (Hall p); [by left | done].
      * split; [| done]. intros _ q [-> | Hq]%elem_of_cons; [done |].
        by apply IH.
Qed.

(** With distinct ids the lookup returns the full name of the one profile
    with that id. *)
Lemma lookup_full_name_unique (ps : list Profile) p :
  NoDup (map profile_id ps) -> p ∈ ps ->
  lookup_full_name ps (profile_id p) = Some (full_name p).
Proof.
  induction ps as [|q ps IH]; simpl; intros Hnd Hp.
  - by apply elem_of_nil in Hp.
  - apply NoDup_cons in Hnd as [Hq Hnd].
    apply elem_of_cons in Hp as [-> | Hp].
    + assert (lookup_full_name ps (profile_id q) = None) as ->.
      { apply lookup_full_name_None. intros r Hr E. apply Hq.
        rewrite <- E. apply list_elem_of_fmap. by exists r. }
      by rewrite decide_True.
    + by rewrite (IH Hnd Hp).
Qed.

(** ** List flow *)

Section ListingFacts.
Import Listing.
Context {Row : Type} `{Columns Row}.
Variable txt : Texts.
Variable profilesAnswer : list jsstring -> Awaited (Response (list Profile)).
Variable st : State Row.

Lemma fetch_rows_error res e :
  error res = Some e ->
  run (fetchRows txt (Resolved res) profilesAnswer) st =
    (Normal tt,
     {| ui := {| searchQuery := searchQuery st; selectedCategory := selectedCategory st;
                 rows := rows st; loading := false;
                 error_state := Some (failed_to_load txt) |};
        log := [ Sent (SelectByStatus (table txt) (status txt));
                 ConsoleError (rows_error_label txt);
                 ConsoleError (js "Fetch error:") ] |}).
Proof.
  intros He. unfold fetchRows, setError, setLoading, setRows. unfold_handler. cbn.
  by rewrite He.
Qed.

Lemma fetch_rows_rejected reason :
  run (fetchRows txt (Rejected reason) profilesAnswer) st =
    (Normal tt,
     {| ui := {| searchQuery := searchQuery st; selectedCategory := selectedCategory st;
                 rows := rows st; loading := false;
                 error_state := Some (failed_to_load txt) |};
        log := [ Sent (SelectByStatus (table txt) (status txt));
                 ConsoleError (js "Fetch error:") ] |}).
Proof. reflexivity. Qed.

Lemma fetch_no_ids res :
  error res = None -> userIds_of (data res) = [] ->
  run (fetchRows txt (Resolved res) profilesAnswer) st =
    (Normal tt,
     {| ui := {| searchQuery := searchQuery st; selectedCategory := selectedCategory st;
                 rows := withNames ∅ (data res); loading := false;
                 error_state := None |};
        log := [ Sent (SelectByStatus (table txt) (status txt)) ] |}).
Proof.
  intros He Hids. unfold fetchRows, setError, setLoading, setRows. unfold_handler. cbn.
  rewrite He. by rewrite Hids.
Qed.

Lemma fetch_profiles_error res pres e :
  error res = None -> userIds_of (data res) <> [] ->
  profilesAnswer (userIds_of (data res)) = Resolved pres -> error pres = Some e ->
  run (fetchRows txt (Resolved res) profilesAnswer) st =
    (Normal tt,
     {| ui := {| searchQuery := searchQuery st; selectedCategory := selectedCategory st;
                 rows := withNames ∅ (data res); loading := false;
                 error_state := None |};
        log := [ Sent (SelectByStatus (table txt) (status txt));
                 Sent (SelectProfilesIn (userIds_of (data res)));
                 ConsoleError (js "Profiles fetch error:") ] |}).
Proof.
  intros He Hids Hp Hpe. unfold fetchRows, setError, setLoading, setRows. unfold_handler. cbn.
  rewrite He.
  destruct (length (userIds_of (data res))) eqn:El;
    [by apply nil_length_inv in El |].
  rewrite Hp. cbn. by rewrite Hpe.
Qed.

Lemma fetch_profiles_ok res pres :
  error res = None -> userIds_of (data res) <> [] ->
  profilesAnswer (userIds_of (data res)) = Resolved pres -> error pres = None ->
  run (fetchRows txt (Resolved res) profilesAnswer) st =
    (Normal tt,
     {| ui := {| searchQuery := searchQuery st; selectedCategory := selectedCategory st;
                 rows := withNames (build_profileMap (data pres)) (data res);
                 loading := false; error_state := None |};
        log := [ Sent (SelectByStatus (table txt) (status txt));
                 Sent (SelectProfilesIn (userIds_of (data res))) ] |}).
Proof.
  intros He Hids Hp Hpe. unfold fetchRows, setError, setLoading, setRows. unfold_handler. cbn.
  rewrite He.
  destruct (length (userIds_of (data res))) eqn:El;
    [by apply nil_length_inv in El |].
  rewrite Hp. cbn. by rewrite Hpe.
Qed.

Lemma fetch_profiles_rejected res reason :
  error res = None -> userIds_of (data res) <> [] ->
  profilesAnswer (userIds_of (data res)) = Rejected reason ->
  run (fetchRows txt (Resolved res) profilesAnswer) st =
    (Normal tt,
     {| ui := {| searchQuery := searchQuery st; selectedCategory := selectedCategory st;
                 rows := rows st; loading := false;
                 error_state := Some (failed_to_load txt) |};
        log := [ Sent (SelectByStatus (table txt) (status txt));
                 Sent (SelectProfilesIn (userIds_of (data res)));
                 ConsoleError (js "Fetch error:") ] |}).
Proof.
  intros He Hids Hp. unfold fetchRows, setError, setLoading, setRows. unfold_handler. cbn.
  rewrite He.
  destruct (length (userIds_of (data res))) eqn:El;
    [by apply nil_length_inv in El |].
  by rewrite Hp.
Qed.

(** The merge: every fetched row gets the display name of its user id. *)
Lemma withNames_display (ps : list Profile) (rowsData : option (list Row)) :
  withNames (build_profileMap (Some ps)) rowsData =
    map (fun r => {| row := r; userName := display_name ps (user_id r) |})
        (default [] rowsData).
Proof.
  unfold withNames. apply map_ext. intros r. by rewrite merged_name.
Qed.

Lemma withNames_empty (rowsData : option (list Row)) :
  withNames ∅ rowsData =
    map (fun r => {| row := r; userName := Anonymous |}) (default [] rowsData).
Proof.
  unfold withNames. apply map_ext. intros r. by rewrite lookup_empty.
Qed.

Lemma userIds_of_elem (rowsData : option (list Row)) x :
  x ∈ userIds_of rowsData <-> x ∈ map user_id (default [] rowsData).
Proof.
  unfold userIds_of. rewrite set_spread_elem. by destruct rowsData.
Qed.

Lemma userIds_of_nil (rowsData : option (list Row)) :
  userIds_of rowsData = [] <-> default [] rowsData = [].
Proof.
  unfold userIds_of. rewrite set_spread_nil.
  destruct rowsData as [[|r l]|]; simpl; split; congruence.
Qed.

Lemma fetch_merge res pres :
  error res = None ->
  profilesAnswer (userIds_of (data res)) = Resolved pres -> error pres = None ->
  rows (final (fetchRows txt (Resolved res) profilesAnswer) st) =
    map (fun r => {| row := r; userName := display_name (default [] (data pres)) (user_id r) |})
        (default [] (data res)).
Proof.
  intros He Hp Hpe. unfold final.
  destruct (userIds_of (data res)) as [|i ids] eqn:Hids.
  - rewrite (fetch_no_ids res He Hids). simpl.
    apply userIds_of_nil in Hids. unfold withNames. by rewrite Hids.
  - rewrite <- Hids in Hp.
    rewrite (fetch_profiles_ok res pres He ltac:(by rewrite Hids) Hp Hpe). simpl.
    destruct (data pres) as [ps|]; simpl.
    + apply withNames_display.
    + apply withNames_empty.
Qed.

Lemma fetch_queries res :
  error res = None ->
  profiles_queried (effects (fetchRows txt (Resolved res) profilesAnswer) st) =
    match default [] (data res) with
    | [] => []
    | _ :: _ => [userIds_of (data res)]
    end.
Proof.
  intros He. unfold effects.
  destruct (userIds_of (data res)) as [|i ids] eqn:Hids.
  - rewrite (fetch_no_ids res He Hids). simpl.
    apply userIds_of_nil in Hids. by rewrite Hids.
  - assert (userIds_of (data res) <> []) as Hne by (by rewrite Hids).
    assert (default [] (data res) <> []) as Hd by (by rewrite <- userIds_of_nil).
    destruct (default [] (data res)) as [|r l] eqn:Ed; [done |].
    rewrite <- Hids.
    destruct (profilesAnswer (userIds_of (data res))) as [pres | reason] eqn:Hp.
    + destruct (error pres) as [e|] eqn:Hpe.
      * by rewrite (fetch_profiles_error res pres e He Hne Hp Hpe).
      * by rewrite (fetch_profiles_ok res pres He Hne Hp Hpe).
    + by rewrite (fetch_profiles_rejected res reason He Hne Hp).
Qed.

(** A profiles answer that carries an error is only logged. *)
Lemma fetch_profiles_failure res pres :
  error res = None ->
  profilesAnswer (userIds_of (data res)) = Resolved pres -> is_Some (error pres) ->
  let h := fetchRows txt (Resolved res) profilesAnswer in
  error_state (final h st) = None /\
  rows (final h st) = map (fun r => {| row := r; userName := Anonymous |}) (default [] (data res)) /\
  List.filter is_toast (effects h st) = [].
Proof.
  intros He Hp [e Hpe]. unfold final, effects. cbv zeta.
  destruct (userIds_of (data res)) as [|i ids] eqn:Hids.
  - rewrite (fetch_no_ids res He Hids). simpl. by rewrite withNames_empty.
  - rewrite <- Hids in Hp.
    rewrite (fetch_profiles_error res pres e He ltac:(by rewrite Hids) Hp Hpe). simpl.
    by rewrite withNames_empty.
Qed.

(** When both promises resolve, the error state is set exactly when the
    rows answer carries an error. *)
Lemma fetch_error_state res :
  (forall ids, exists pres, profilesAnswer ids = Resolved pres) ->
  error_state (final (fetchRows txt (Resolved res) profilesAnswer) st) <> None
  <-> error res <> None.
Proof.
  intros Hres. unfold final.
  destruct (error res) as [e|] eqn:He.
  - by rewrite (fetch_rows_error res e He).
  - destruct (userIds_of (data res)) as [|i ids] eqn:Hids.
    + by rewrite (fetch_no_ids res He Hids).
    + assert (userIds_of (data res) <> []) as Hne by (by rewrite Hids).
      destruct (Hres (userIds_of (data res))) as [pres Hp].
      destruct (error pres) as [e|] eqn:Hpe.
      * by rewrite (fetch_profiles_error res pres e He Hne Hp Hpe).
      * by rewrite (fetch_profiles_ok res pres He Hne Hp Hpe).
Qed.

(** For any two answers: the error state is set exactly when the rows
    fetch failed, or the rows were fetched, there were some, and the
    promise of the profiles request rejected. *)
Lemma fetch_error_state_iff rowsAnswer :
  error_state (final (fetchRows txt rowsAnswer profilesAnswer) st) <> None
  <-> answer_failed rowsAnswer \/
      exists res reason,
        rowsAnswer = Resolved res /\ error res = None /\
        default [] (data res) <> [] /\
        profilesAnswer (userIds_of (data res)) = Rejected reason.
Proof.
  unfold final. destruct rowsAnswer as [res | reason].
  - destruct (error res) as [e|] eqn:He.
    + rewrite (fetch_rows_error res e He). simpl.
      split; [intros _; left; congruence | done].
    + destruct (decide (userIds_of (data res) = [])) as [Hids | Hne].
      * rewrite (fetch_no_ids res He Hids). simpl. split; [done |].
        intros [Hf | (res' & reason & [= <-] & _ & Hrows & _)]; [done |].
        exfalso. by apply Hrows, userIds_of_nil.
      * destruct (profilesAnswer (userIds_of (data res))) as [pres | reason] eqn:Hp.
        -- assert (error_state
                     (ui (snd (run (fetchRows txt (Resolved res) profilesAnswer) st))) = None)
             as ->.
           { destruct (error pres) as [e|] eqn:Hpe.
             - by rewrite (fetch_profiles_error res pres e He Hne Hp Hpe).
             - by rewrite (fetch_profiles_ok res pres He Hne Hp Hpe). }
           split; [done |].
           intros [Hf | (res' & reason & [= <-] & _ & _ & Hp')]; [done |].
           rewrite Hp in Hp'. discriminate.
        -- rewrite (fetch_profiles_rejected res reason He Hne Hp). simpl.
           split; [| done]. intros _. right. exists res, reason.
           split_and!; try done. intros Hrows. by apply Hne, userIds_of_nil.
  - rewrite fetch_rows_rejected. simpl. split; [intros _; by left | done].
Qed.

Section Filter.
Variable toLowerCase : jsstring -> jsstring.

Lemma filteredRows_elem (s : State Row) (x : Named Row) :
  x ∈ filteredRows toLowerCase s <->
  x ∈ rows s /\
  (JsString.substring (toLowerCase (searchQuery s)) (toLowerCase (title (row x))) \/
   exists d, description (row x) = Some d /\
             JsString.substring (toLowerCase (searchQuery s)) (toLowerCase d)) /\
  (selectedCategory s = js "All" \/ selectedCategory s = category (row x)).
Proof.
  unfold filteredRows, matchesSearch, matchesCategory.
  rewrite !list_elem_of_In, filter_In, andb_true_iff, !orb_true_iff.
  rewrite !eqb_true, includes_spec.
  assert (match description (row x) with
          | Some d => JsString.includes (toLowerCase d) (toLowerCase (searchQuery s))
          | None => false
          end = true <->
          exists d, description (row x) = Some d /\
            JsString.substring (toLowerCase (searchQuery s)) (toLowerCase d)) as ->.
  { destruct (description (row x)) as [d|].
    - rewrite includes_spec. split; [by exists d | by intros (? & [= <-] & ?)].
    - split; [done | by intros (? & ? & ?)]. }
  split; intros (? & ? & [? | ?]); split_and!; auto.
Qed.

Lemma filteredRows_sublist (s : State Row) :
  filteredRows toLowerCase s `sublist_of` rows s.
Proof.
  unfold filteredRows. induction (rows s) as [|x l IH]; simpl; [constructor |].
  destruct (_ && _); by constructor.
Qed.

Lemma filteredRows_all (s : State Row) :
  toLowerCase [] = [] ->
  searchQuery s = [] -> selectedCategory s = js "All" ->
  filteredRows toLowerCase s = rows s.
Proof.
  intros Hlc Hq Hcat. unfold filteredRows, matchesSearch, matchesCategory.
  rewrite Hq, Hcat, Hlc. apply forallb_filter_id, forallb_forall.
  intros x _. by rewrite includes_nil, eqb_refl.
Qed.

End Filter.

End ListingFacts.

Example set_spread_keeps_first_occurrences :
  set_spread [js "u2"; js "u1"; js "u2"] = [js "u2"; js "u1"].
Proof. reflexivity. Qed.

Example fetchRequests_effects :
  effects (HelpRequests.fetchRequests (Resolved (rows_answer [sample_request; other_request]))
             (fun _ => Resolved (rows_answer [named_profile]))) idle_requests_page
  = [ Sent (SelectByStatus (js "help_requests") (js "open"));
      Sent (SelectProfilesIn [js "u1"; js "u2"]) ].
Proof. reflexivity. Qed.

(** A profiles request whose promise rejects is an exception inside
    [try]: it reaches the [catch] block like a failed rows fetch. *)
Example fetchRequests_profiles_rejected :
  Listing.error_state
    (final (HelpRequests.fetchRequests (Resolved (rows_answer [sample_request]))
              (fun _ => Rejected (js "TypeError"))) idle_requests_page)
  = Some (js "Failed to load help requests. Please try again.").
Proof. reflexivity. Qed.

(** ** List flow: the claims *)

(** C2 as stated fails: a profile whose full name is the empty string is
    in the lookup, yet its rows are shown as "Anonymous". *)
Lemma merge_described_name_counterexample :
  Listing.rows
    (final (HelpRequests.fetchRequests (Resolved (rows_answer [sample_request]))
              (fun _ => Resolved (rows_answer [empty_name_profile])))
           idle_requests_page)
  <> map (fun r => {| Listing.row := r;
                      Listing.userName := described_name [empty_name_profile] (HelpRequests.user_id r) |})
         [sample_request].
Proof. vm_compute. discriminate. Qed.

(** C2 (amended): the merge gives each fetched row the full name that the
    id -> full_name lookup of the profile list holds for its user id, and
    "Anonymous" when the profile list has no entry for that id or the
    entry's full name is absent or empty. *)
Theorem merge_assigns_display_names :
  (forall (st : HelpRequests.State) rowsData profiles profilesAnswer,
     profilesAnswer (Listing.userIds_of (Some rowsData)) = Resolved (rows_answer profiles) ->
     Listing.rows (final (HelpRequests.fetchRequests (Resolved (rows_answer rowsData)) profilesAnswer) st)
     = map (fun r => {| Listing.row := r;
                        Listing.userName := display_name profiles (HelpRequests.user_id r) |})
           rowsData)
  /\
  (forall (st : Donations.State) rowsData profiles profilesAnswer,
     profilesAnswer (Listing.userIds_of (Some rowsData)) = Resolved (rows_answer profiles) ->
     Listing.rows (final (Donations.fetchDonations (Resolved (rows_answer rowsData)) profilesAnswer) st)
     = map (fun r => {| Listing.row := r;
                        Listing.userName := display_name profiles (Donations.user_id r) |})
           rowsData)
  /\
  (forall profiles uid,
     (forall n, lookup_full_name profiles uid = Some (Some n) -> n <> [] ->
                display_name profiles uid = n) /\
     ((forall p, p ∈ profiles -> profile_id p <> uid) ->
      display_name profiles uid = Anonymous) /\
     (lookup_full_name profiles uid = Some None -> display_name profiles uid = Anonymous) /\
     (lookup_full_name profiles uid = Some (Some []) -> display_name profiles uid = Anonymous)).
Proof.
  split; [| split].
  - intros st rowsData profiles profilesAnswer Hp.
    exact (fetch_merge HelpRequests.texts profilesAnswer st
             (rows_answer rowsData) (rows_answer profiles) eq_refl Hp eq_refl).
  - intros st rowsData profiles profilesAnswer Hp.
    exact (fetch_merge Donations.texts profilesAnswer st
             (rows_answer rowsData) (rows_answer profiles) eq_refl Hp eq_refl).
  - intros profiles uid. unfold display_name. repeat split.
    + intros n -> Hn. by destruct n.
    + intros Hno. apply lookup_full_name_None in Hno. by rewrite Hno.
    + by intros ->.
    + by intros ->.
Qed.

Lemma merge_assigns_display_names_witness :
  Listing.rows
    (final (HelpRequests.fetchRequests (Resolved (rows_answer [sample_request; other_request]))
              (fun _ => Resolved (rows_answer [named_profile])))
           idle_requests_page)
  = [ {| Listing.row := sample_request; Listing.userName := js "Asha" |};
      {| Listing.row := other_request; Listing.userName := js "Anonymous" |} ]
  /\
  Listing.rows
    (final (Donations.fetchDonations (Resolved (rows_answer [sample_donation]))
              (fun _ => Resolved (rows_answer [empty_name_profile])))
           idle_donations_page)
  = [ {| Listing.row := sample_donation; Listing.userName := js "Anonymous" |} ]
  /\
  display_name [named_profile] (js "u1") = js "Asha".
Proof.
  split; [| split].
  - exact (proj1 merge_assigns_display_names idle_requests_page
             [sample_request; other_request] [named_profile]
             (fun _ => Resolved (rows_answer [named_profile])) eq_refl).
  - exact (proj1 (proj2 merge_assigns_display_names) idle_donations_page
             [sample_donation] [empty_name_profile]
             (fun _ => Resolved (rows_answer [empty_name_profile])) eq_refl).
  - refine (proj1 (proj2 (proj2 merge_assigns_display_names) [named_profile] (js "u1"))
              (js "Asha") eq_refl _).
    discriminate.
Defined.

(** C8: when the rows fetch succeeds, the profiles table is queried once,
    over the distinct user ids of the fetched rows (each id once, no other
    id), and not at all when no row was fetched. *)
Theorem profiles_queried_for_distinct_user_ids :
  (forall (st : HelpRequests.State) rowsRes profilesAnswer,
     error rowsRes = None ->
     let fetched := default [] (data rowsRes) in
     let ev := effects (HelpRequests.fetchRequests (Resolved rowsRes) profilesAnswer) st in
     (fetched = [] -> profiles_queried ev = []) /\
     (fetched <> [] ->
        exists ids, profiles_queried ev = [ids] /\ NoDup ids /\
                    forall x, x ∈ ids <-> x ∈ map HelpRequests.user_id fetched))
  /\
  (forall (st : Donations.State) rowsRes profilesAnswer,
     error rowsRes = None ->
     let fetched := default [] (data rowsRes) in
     let ev := effects (Donations.fetchDonations (Resolved rowsRes) profilesAnswer) st in
     (fetched = [] -> profiles_queried ev = []) /\
     (fetched <> [] ->
        exists ids, profiles_queried ev = [ids] /\ NoDup ids /\
                    forall x, x ∈ ids <-> x ∈ map Donations.user_id fetched)).
Proof.
  split; intros st rowsRes profilesAnswer He fetched ev; subst fetched ev.
  - unfold HelpRequests.fetchRequests.
    rewrite (fetch_queries HelpRequests.texts profilesAnswer st rowsRes He).
    split.
    + by intros ->.
    + intros Hne. destruct (default [] (data rowsRes)) as [|r l] eqn:Ed; [done |].
      exists (Listing.userIds_of (data rowsRes)). split; [done |].
      split; [apply set_spread_NoDup |].
      intros x. rewrite userIds_of_elem. by rewrite Ed.
  - unfold Donations.fetchDonations.
    rewrite (fetch_queries Donations.texts profilesAnswer st rowsRes He).
    split.
    + by intros ->.
    + intros Hne. destruct (default [] (data rowsRes)) as [|r l] eqn:Ed; [done |].
      exists (Listing.userIds_of (data rowsRes)). split; [done |].
      split; [apply set_spread_NoDup |].
      intros x. rewrite userIds_of_elem. by rewrite Ed.
Qed.

Lemma profiles_queried_for_distinct_user_ids_witness :
  profiles_queried
    (effects (HelpRequests.fetchRequests (Resolved (rows_answer []))
                (fun _ => Resolved (rows_answer [named_profile]))) idle_requests_page) = []
  /\
  exists ids,
    profiles_queried
      (effects (Donations.fetchDonations
                  (Resolved (rows_answer [sample_donation; sample_donation]))
                  (fun _ => Resolved (rows_answer [named_profile]))) idle_donations_page) = [ids]
    /\ NoDup ids
    /\ forall x, x ∈ ids <-> x ∈ map Donations.user_id [sample_donation; sample_donation].
Proof.
  split.
  - exact (proj1 (proj1 profiles_queried_for_distinct_user_ids idle_requests_page
                    (rows_answer []) (fun _ => Resolved (rows_answer [named_profile])) eq_refl)
                 eq_refl).
  - refine (proj2 (proj2 profiles_queried_for_distinct_user_ids idle_donations_page
                     (rows_answer [sample_donation; sample_donation])
                     (fun _ => Resolved (rows_answer [named_profile])) eq_refl) _).
    discriminate.
Defined.

(** C9 as stated fails: the rows fetch succeeds and the profiles fetch
    alone fails, by a rejected promise; the exception reaches the [catch]
    block, so the page is in the error state and the fetched row is not
    stored. *)
Lemma profiles_rejection_counterexample :
  let h := HelpRequests.fetchRequests (Resolved (rows_answer [sample_request]))
             (fun _ => Rejected (js "TypeError")) in
  ~ answer_failed (Resolved (rows_answer [sample_request])) /\
  Listing.error_state (final h idle_requests_page)
    = Some (js "Failed to load help requests. Please try again.") /\
  Listing.rows (final h idle_requests_page)
    <> map (fun r => {| Listing.row := r; Listing.userName := Anonymous |}) [sample_request].
Proof.
  cbv zeta. split_and!.
  - intros Hf. by apply Hf.
  - reflexivity.
  - vm_compute. discriminate.
Qed.

(** C9 (amended): a profiles fetch that is answered with an error does
    not, alone, put the listing page into the error state and shows no
    message: the fetched rows are stored, each with the display name
    "Anonymous".  For every pair of answers the page ends in the error
    state exactly when the rows fetch failed, or rows were fetched and
    the promise of the profiles request rejected. *)
Theorem profiles_error_answer_falls_back_to_anonymous :
  (forall (st : HelpRequests.State) rowsAnswer profilesAnswer,
     let h := HelpRequests.fetchRequests rowsAnswer profilesAnswer in
     (forall rowsRes profilesRes,
        rowsAnswer = Resolved rowsRes -> error rowsRes = None ->
        profilesAnswer (Listing.userIds_of (data rowsRes)) = Resolved profilesRes ->
        is_Some (error profilesRes) ->
        Listing.error_state (final h st) = None /\
        Listing.rows (final h st)
          = map (fun r => {| Listing.row := r; Listing.userName := Anonymous |})
                (default [] (data rowsRes)) /\
        List.filter is_toast (effects h st) = []) /\
     (Listing.error_state (final h st) <> None <->
        answer_failed rowsAnswer \/
        exists rowsRes reason,
          rowsAnswer = Resolved rowsRes /\ error rowsRes = None /\
          default [] (data rowsRes) <> [] /\
          profilesAnswer (Listing.userIds_of (data rowsRes)) = Rejected reason))
  /\
  (forall (st : Donations.State) rowsAnswer profilesAnswer,
     let h := Donations.fetchDonations rowsAnswer profilesAnswer in
     (forall rowsRes profilesRes,
        rowsAnswer = Resolved rowsRes -> error rowsRes = None ->
        profilesAnswer (Listing.userIds_of (data rowsRes)) = Resolved profilesRes ->
        is_Some (error profilesRes) ->
        Listing.error_state (final h st) = None /\
        Listing.rows (final h st)
          = map (fun r => {| Listing.row := r; Listing.userName := Anonymous |})
                (default [] (data rowsRes)) /\
        List.filter is_toast (effects h st) = []) /\
     (Listing.error_state (final h st) <> None <->
        answer_failed rowsAnswer \/
        exists rowsRes reason,
          rowsAnswer = Resolved rowsRes /\ error rowsRes = None /\
          default [] (data rowsRes) <> [] /\
          profilesAnswer (Listing.userIds_of (data rowsRes)) = Rejected reason)).
Proof.
  split; intros st rowsAnswer profilesAnswer h; subst h; split.
  - intros rowsRes profilesRes -> He Hp Hpe.
    exact (fetch_profiles_failure HelpRequests.texts profilesAnswer st rowsRes profilesRes
             He Hp Hpe).
  - exact (fetch_error_state_iff HelpRequests.texts profilesAnswer st rowsAnswer).
  - intros rowsRes profilesRes -> He Hp Hpe.
    exact (fetch_profiles_failure Donations.texts profilesAnswer st rowsRes profilesRes
             He Hp Hpe).
  - exact (fetch_error_state_iff Donations.texts profilesAnswer st rowsAnswer).
Qed.

Lemma profiles_error_answer_falls_back_to_anonymous_witness :
  Listing.rows
    (final (HelpRequests.fetchRequests (Resolved (rows_answer [sample_request]))
              (fun _ => Resolved failed_answer)) idle_requests_page)
  = [ {| Listing.row := sample_request; Listing.userName := js "Anonymous" |} ]
  /\
  Listing.error_state
    (final (Donations.fetchDonations (Resolved (rows_answer [sample_donation]))
              (fun _ => Rejected (js "TypeError"))) idle_donations_page)
  <> None.
Proof.
  split.
  - refine (proj1 (proj2 (proj1 (proj1 profiles_error_answer_falls_back_to_anonymous
              idle_requests_page (Resolved (rows_answer [sample_request]))
              (fun _ => Resolved failed_answer))
              (rows_answer [sample_request]) failed_answer eq_refl eq_refl eq_refl _))).
    by eexists.
  - refine (proj2 (proj2 (proj2 profiles_error_answer_falls_back_to_anonymous
              idle_donations_page (Resolved (rows_answer [sample_donation]))
              (fun _ => Rejected (js "TypeError")))) _).
    right. exists (rows_answer [sample_donation]), (js "TypeError").
    split_and!; try reflexivity. discriminate.
Defined.

(** C3: an item is in the filtered list of a listing page exactly when it
    is in the fetched list, the lower-cased query is a substring of its
    lower-cased title or of its lower-cased description (when it has one),
    and the selected category is "All" or the item's category. *)
Theorem filtered_list_membership (toLowerCase : jsstring -> jsstring) :
  (forall (st : HelpRequests.State) x,
     x ∈ HelpRequests.filteredRequests toLowerCase st <->
     x ∈ Listing.rows st /\
     (JsString.substring (toLowerCase (Listing.searchQuery st))
        (toLowerCase (HelpRequests.title (Listing.row x))) \/
      exists d, HelpRequests.description (Listing.row x) = Some d /\
                JsString.substring (toLowerCase (Listing.searchQuery st)) (toLowerCase d)) /\
     (Listing.selectedCategory st = js "All" \/
      Listing.selectedCategory st = HelpRequests.category (Listing.row x)))
  /\
  (forall (st : Donations.State) x,
     x ∈ Donations.filteredDonations toLowerCase st <->
     x ∈ Listing.rows st /\
     (JsString.substring (toLowerCase (Listing.searchQuery st))
        (toLowerCase (Donations.title (Listing.row x))) \/
      exists d, Donations.description (Listing.row x) = Some d /\
                JsString.substring (toLowerCase (Listing.searchQuery st)) (toLowerCase d)) /\
     (Listing.selectedCategory st = js "All" \/
      Listing.selectedCategory st = Donations.category (Listing.row x))).
Proof.
  split; intros st x.
  - exact (filteredRows_elem toLowerCase st x).
  - exact (filteredRows_elem toLowerCase st x).
Qed.

(** C10: with the empty query and the category "All" the filter returns
    the fetched list unchanged, and for every query and category the
    filtered list is a subsequence of the fetched list.  ([toLowerCase]
    maps the empty string to itself.) *)
Theorem filter_identity_and_subsequence (toLowerCase : jsstring -> jsstring) :
  toLowerCase [] = [] ->
  (forall st : HelpRequests.State,
     (Listing.searchQuery st = [] -> Listing.selectedCategory st = js "All" ->
      HelpRequests.filteredRequests toLowerCase st = Listing.rows st) /\
     HelpRequests.filteredRequests toLowerCase st `sublist_of` Listing.rows st)
  /\
  (forall st : Donations.State,
     (Listing.searchQuery st = [] -> Listing.selectedCategory st = js "All" ->
      Donations.filteredDonations toLowerCase st = Listing.rows st) /\
     Donations.filteredDonations toLowerCase st `sublist_of` Listing.rows st).
Proof.
  intros Hlc. split; intros st; split.
  - exact (filteredRows_all toLowerCase st Hlc).
  - exact (filteredRows_sublist toLowerCase st).
  - exact (filteredRows_all toLowerCase st Hlc).
  - exact (filteredRows_sublist toLowerCase st).
Qed.

Lemma filter_identity_and_subsequence_witness :
  HelpRequests.filteredRequests JsString.ascii_toLowerCase loaded_requests_page
    = Listing.rows loaded_requests_page
  /\
  Donations.filteredDonations JsString.ascii_toLowerCase loaded_donations_page
    `sublist_of` Listing.rows loaded_donations_page.
Proof.
  split.
  - exact (proj1 (proj1 (filter_identity_and_subsequence JsString.ascii_toLowerCase eq_refl)
                    loaded_requests_page) eq_refl eq_refl).
  - exact (proj2 (proj2 (filter_identity_and_subsequence JsString.ascii_toLowerCase eq_refl)
                    loaded_donations_page)).
Defined.

(** ** Delete flow and profile data *)

Section ProfileFacts.
Import Profile.
Variable st : State.

(** Boolean [filter] with a negated string test is the removal of the
    items that pass the test. *)
Lemma filter_negb_eqb {A} (key : A -> jsstring) (id : jsstring) (l : list A) :
  List.filter (fun x => negb (key x === id)) l = filter (fun x => key x <> id) l.
Proof.
  induction l as [|x l IH]; simpl; [done |].
  rewrite filter_cons. destruct (decide (key x <> id)) as [Hne | Heq].
  - apply eqb_false in Hne. rewrite Hne. simpl. by rewrite IH.
  - apply dec_stable in Heq. apply eqb_true in Heq. rewrite Heq. simpl. by rewrite IH.
Qed.

Lemma delete_donation_ok id res :
  error res = None ->
  run (handleDeleteDonation id (Resolved res)) st =
    (Normal tt,
     {| ui := {| donations := List.filter (fun d => negb (d_id d === id)) (donations st);
                 requests := requests st; loading := loading st;
                 error_state := error_state st |};
        log := [ Sent (DeleteById (js "donations") id);
                 ToastSuccess (js "Donation deleted successfully") ] |}).
Proof.
  intros He. unfold handleDeleteDonation, setDonations. unfold_handler. cbn. by rewrite He.
Qed.

Lemma delete_request_ok id res :
  error res = None ->
  run (handleDeleteRequest id (Resolved res)) st =
    (Normal tt,
     {| ui := {| donations := donations st;
                 requests := List.filter (fun r => negb (r_id r === id)) (requests st);
                 loading := loading st; error_state := error_state st |};
        log := [ Sent (DeleteById (js "help_requests") id);
                 ToastSuccess (js "Request deleted successfully") ] |}).
Proof.
  intros He. unfold handleDeleteRequest, setRequests. unfold_handler. cbn. by rewrite He.
Qed.

Lemma delete_donation_failed id res e :
  error res = Some e ->
  run (handleDeleteDonation id (Resolved res)) st =
    (Normal tt,
     {| ui := st;
        log := [ Sent (DeleteById (js "donations") id);
                 ToastError (if code e === js "42501" then donation_permission_denied
                             else donation_delete_failed);
                 ConsoleError (js "Delete donation error:") ] |}).
Proof.
  intros He. unfold handleDeleteDonation. unfold_handler. cbn. rewrite He.
  by destruct (code e === js "42501").
Qed.

Lemma delete_request_failed id res e :
  error res = Some e ->
  run (handleDeleteRequest id (Resolved res)) st =
    (Normal tt,
     {| ui := st;
        log := [ Sent (DeleteById (js "help_requests") id);
                 ToastError (if code e === js "42501" then request_permission_denied
                             else request_delete_failed);
                 ConsoleError (js "Delete request error:") ] |}).
Proof.
  intros He. unfold handleDeleteRequest. unfold_handler. cbn. rewrite He.
  by destruct (code e === js "42501").
Qed.

Lemma fetchUserData_sends u dAns rAns :
  exists rest,
    effects (fetchUserData (Some u) dAns rAns) st =
      Sent (donations_query (user_id_of u)) :: Sent (requests_query (user_id_of u)) :: rest
    /\ Forall (fun e => is_select e = false) rest.
Proof.
  unfold fetchUserData, setError, setLoading, setDonations, setRequests. unfold_handler. cbn.
  destruct dAns as [dres | ?], rAns as [rres | ?]; cbn;
    try destruct (error dres); try destruct (error rres); cbn;
    eexists; (split; [reflexivity | by repeat constructor]).
Qed.

Lemma fetchUserData_ok u dres rres :
  error dres = None -> error rres = None ->
  final (fetchUserData (Some u) (Resolved dres) (Resolved rres)) st =
    {| donations := default [] (data dres); requests := default [] (data rres);
       loading := false; error_state := None |}.
Proof.
  intros Hd Hr.
  unfold fetchUserData, setError, setLoading, setDonations, setRequests. unfold_handler. cbn.
  by rewrite Hd, Hr.
Qed.

Lemma fetchUserData_failed u dAns rAns :
  answer_failed dAns \/ answer_failed rAns ->
  final (fetchUserData (Some u) dAns rAns) st =
    {| donations := donations st; requests := requests st;
       loading := false; error_state := Some failed_to_load |}.
Proof.
  unfold fetchUserData, setError, setLoading, setDonations, setRequests. unfold_handler. cbn.
  destruct dAns as [dres | ?], rAns as [rres | ?]; cbn;
    try destruct (error dres); try destruct (error rres); cbn;
    intros [? | ?]; done.
Qed.

End ProfileFacts.

(** C5: a delete that succeeds removes from the local list exactly the
    items with the deleted id, keeps every other item, in its place, and
    sends nothing but the delete request: the list is not fetched again. *)
Theorem successful_delete_removes_matching_items :
  (forall (st : Profile.State) id res,
     error res = None ->
     let h := Profile.handleDeleteDonation id (Resolved res) in
     Profile.donations (final h st) = filter (fun d => Profile.d_id d <> id) (Profile.donations st) /\
     (forall d, d ∈ Profile.donations (final h st) <->
                d ∈ Profile.donations st /\ Profile.d_id d <> id) /\
     Profile.donations (final h st) `sublist_of` Profile.donations st /\
     Profile.requests (final h st) = Profile.requests st /\
     Forall (fun e => is_select e = false) (effects h st))
  /\
  (forall (st : Profile.State) id res,
     error res = None ->
     let h := Profile.handleDeleteRequest id (Resolved res) in
     Profile.requests (final h st) = filter (fun r => Profile.r_id r <> id) (Profile.requests st) /\
     (forall r, r ∈ Profile.requests (final h st) <->
                r ∈ Profile.requests st /\ Profile.r_id r <> id) /\
     Profile.requests (final h st) `sublist_of` Profile.requests st /\
     Profile.donations (final h st) = Profile.donations st /\
     Forall (fun e => is_select e = false) (effects h st)).
Proof.
  split; intros st id res He h; subst h; unfold final, effects.
  - rewrite (delete_donation_ok st id res He). simpl. rewrite filter_negb_eqb.
    split_and!; [done | | apply sublist_filter | done | by repeat constructor].
    intros d. rewrite list_elem_of_filter. tauto.
  - rewrite (delete_request_ok st id res He). simpl. rewrite filter_negb_eqb.
    split_and!; [done | | apply sublist_filter | done | by repeat constructor].
    intros r. rewrite list_elem_of_filter. tauto.
Qed.

Lemma successful_delete_removes_matching_items_witness :
  Profile.donations
    (final (Profile.handleDeleteDonation (js "d1") (Resolved accepted)) my_profile_page)
  = [books]
  /\
  Profile.requests
    (final (Profile.handleDeleteRequest (js "r9") (Resolved accepted)) my_profile_page)
  = [tutoring].
Proof.
  split.
  - transitivity (filter (fun d => Profile.d_id d <> js "d1") (Profile.donations my_profile_page));
      [| by vm_compute].
    exact (proj1 (proj1 successful_delete_removes_matching_items
                    my_profile_page (js "d1") accepted eq_refl)).
  - transitivity (filter (fun r => Profile.r_id r <> js "r9") (Profile.requests my_profile_page));
      [| by vm_compute].
    exact (proj1 (proj2 successful_delete_removes_matching_items
                    my_profile_page (js "r9") accepted eq_refl)).
Defined.

(** C7: a delete that fails shows the permission-denied message exactly
    when the error code is "42501" and the generic failure message
    otherwise, and leaves the local state, so both lists, as it was. *)
Theorem failed_delete_message_and_state :
  (forall (st : Profile.State) id res e,
     error res = Some e ->
     let h := Profile.handleDeleteDonation id (Resolved res) in
     (code e = js "42501" ->
        List.filter is_toast (effects h st) = [ToastError Profile.donation_permission_denied]) /\
     (code e <> js "42501" ->
        List.filter is_toast (effects h st) = [ToastError Profile.donation_delete_failed]) /\
     final h st = st)
  /\
  (forall (st : Profile.State) id res e,
     error res = Some e ->
     let h := Profile.handleDeleteRequest id (Resolved res) in
     (code e = js "42501" ->
        List.filter is_toast (effects h st) = [ToastError Profile.request_permission_denied]) /\
     (code e <> js "42501" ->
        List.filter is_toast (effects h st) = [ToastError Profile.request_delete_failed]) /\
     final h st = st).
Proof.
  split; intros st id res e He h; subst h; unfold final, effects.
  - rewrite (delete_donation_failed st id res e He). simpl. split_and!; [| | done].
    + by intros ->.
    + intros Hne. apply eqb_false in Hne. by rewrite Hne.
  - rewrite (delete_request_failed st id res e He). simpl. split_and!; [| | done].
    + by intros ->.
    + intros Hne. apply eqb_false in Hne. by rewrite Hne.
Qed.

Lemma failed_delete_message_and_state_witness :
  List.filter is_toast
    (effects (Profile.handleDeleteDonation (js "d1") (Resolved (rejected_with (js "42501"))))
             my_profile_page)
  = [ToastError Profile.donation_permission_denied]
  /\
  final (Profile.handleDeleteRequest (js "r1") (Resolved (rejected_with (js "23503"))))
        my_profile_page
  = my_profile_page.
Proof.
  split.
  - exact (proj1 (proj1 failed_delete_message_and_state my_profile_page (js "d1")
                    (rejected_with (js "42501")) _ eq_refl) eq_refl).
  - exact (proj2 (proj2 (proj2 failed_delete_message_and_state my_profile_page (js "r1")
                    (rejected_with (js "23503")) _ eq_refl))).
Defined.

(** C6: on the profile page both fetches are sent before either answer
    is looked at, and they are joined all-or-nothing: when either fetch
    fails neither list is updated and the error state is set; both lists
    are updated when both fetches succeed, and only then. *)
Theorem profile_fetch_all_or_nothing :
  forall (st : Profile.State) u dAns rAns,
    let h := Profile.fetchUserData (Some u) dAns rAns in
    (exists rest,
       effects h st = Sent (Profile.donations_query (user_id_of u))
                      :: Sent (Profile.requests_query (user_id_of u)) :: rest
       /\ Forall (fun e => is_select e = false) rest) /\
    (answer_failed dAns \/ answer_failed rAns ->
       Profile.donations (final h st) = Profile.donations st /\
       Profile.requests (final h st) = Profile.requests st /\
       Profile.error_state (final h st) = Some Profile.failed_to_load) /\
    (forall dres rres,
       dAns = Resolved dres -> rAns = Resolved rres ->
       error dres = None -> error rres = None ->
       Profile.donations (final h st) = default [] (data dres) /\
       Profile.requests (final h st) = default [] (data rres) /\
       Profile.error_state (final h st) = None).
Proof.
  intros st u dAns rAns h; subst h. split_and!.
  - apply fetchUserData_sends.
  - intros Hf. by rewrite (fetchUserData_failed st u dAns rAns Hf).
  - intros dres rres -> -> Hd Hr. by rewrite (fetchUserData_ok st u dres rres Hd Hr).
Qed.

Lemma profile_fetch_all_or_nothing_witness :
  Profile.donations
    (final (Profile.fetchUserData (Some sample_user)
              (Resolved (rows_answer [coat])) (Resolved failed_answer)) empty_profile_page)
  = []
  /\
  Profile.requests
    (final (Profile.fetchUserData (Some sample_user)
              (Resolved (rows_answer [coat])) (Resolved (rows_answer [tutoring])))
           empty_profile_page)
  = [tutoring].
Proof.
  split.
  - refine (proj1 (proj1 (proj2 (profile_fetch_all_or_nothing empty_profile_page sample_user
              (Resolved (rows_answer [coat])) (Resolved failed_answer))) _)).
    right. discriminate.
  - exact (proj1 (proj2 (proj2 (proj2 (profile_fetch_all_or_nothing empty_profile_page sample_user
              (Resolved (rows_answer [coat])) (Resolved (rows_answer [tutoring]))))
              _ _ eq_refl eq_refl eq_refl eq_refl))).
Defined.

(** * Further properties *)

(** ** Trimming *)

Lemma trimStart_suffix (s : list N) : exists ws, s = ws ++ JsString.trimStart s.
Proof.
  induction s as [|c s [ws IH]]; simpl.
  - by exists [].
  - destruct (JsString.is_space c).
    + exists (c :: ws). simpl. by rewrite <- IH.
    + by exists [].
Qed.

Lemma trimEnd_prefix (s : list N) : exists ws, s = JsString.trimEnd s ++ ws.
Proof.
  unfold JsString.trimEnd. destruct (trimStart_suffix (rev s)) as [ws E].
  exists (rev ws). rewrite <- rev_app_distr, <- E. by rewrite rev_involutive.
Qed.

Lemma trim_trimmed (s : list N) : trimmed (JsString.trim s).
Proof.
  unfold trimmed, JsString.trim. split.
  - intros c r E. destruct (trimEnd_prefix (JsString.trimStart s)) as [ws Hws].
    rewrite E in Hws. by apply (trimStart_head s c ((r ++ ws))).
  - intros r c E. unfold JsString.trimEnd in E.
    apply (f_equal (@rev N)) in E. rewrite rev_involutive, rev_app_distr in E. simpl in E.
    by apply (trimStart_head _ _ _ E).
Qed.

Lemma trim_nonempty (s : list N) : ~ JsString.blank s -> JsString.trim s <> [].
Proof. intros Hb E. by apply Hb, trim_nil. Qed.

(** ** Submit flow *)

Ltac submit_run :=
  unfold HelpRequestForm.handleSubmit, HelpRequestForm.setLoading,
         DonationForm.handleSubmit, DonationForm.setLoading, completes;
  unfold_handler; cbn.

(** Case analysis on the answer to an insert. *)
Ltac insert_answer :=
  match goal with
  | |- context [match ?ins ?row with Resolved _ => _ | Rejected _ => _ end] =>
      destruct (ins row) as [[? [?|]]|] eqn:?; cbn
  end;
  repeat match goal with
  | |- context [if ?a === ?b then _ else _] => destruct (a === b) eqn:?; cbn
  end.

(** X1: every submit, whatever the user, the form and the answer of the
    backend (a rejected promise included), returns without throwing and
    shows exactly one toast. *)
Theorem submit_shows_exactly_one_toast :
  (forall user insert (st : HelpRequestForm.State),
     let h := HelpRequestForm.handleSubmit user insert in
     completes h st /\ exists t, List.filter is_toast (effects h st) = [t])
  /\
  (forall user insert (st : DonationForm.State),
     let h := DonationForm.handleSubmit user insert in
     completes h st /\ exists t, List.filter is_toast (effects h st) = [t]).
Proof.
  split; intros user insert st h; subst h; submit_run;
    (destruct user as [u|]; [| by eauto]);
    field_checks; cbn; eauto; insert_answer; eauto.
Qed.

(** X2: a submit never alters the form data, whatever its outcome; it
    leaves the whole state as it was when nothing is sent, and ends with
    [loading] off once an insert was sent. *)
Theorem submit_keeps_form_data :
  (forall user insert (st : HelpRequestForm.State),
     let h := HelpRequestForm.handleSubmit user insert in
     HelpRequestForm.formData (final h st) = HelpRequestForm.formData st /\
     (requests_sent (effects h st) = [] -> final h st = st) /\
     (requests_sent (effects h st) <> [] -> HelpRequestForm.loading (final h st) = false))
  /\
  (forall user insert (st : DonationForm.State),
     let h := DonationForm.handleSubmit user insert in
     DonationForm.formData (final h st) = DonationForm.formData st /\
     (requests_sent (effects h st) = [] -> final h st = st) /\
     (requests_sent (effects h st) <> [] -> DonationForm.loading (final h st) = false)).
Proof.
  split; intros user insert st h; subst h; submit_run;
    (destruct user as [u|]; [| by destruct st]);
    field_checks; cbn; try (by destruct st); insert_answer; by destruct st.
Qed.

Lemma submit_keeps_form_data_witness :
  final (HelpRequestForm.handleSubmit (Some sample_user) (fun _ => Resolved accepted))
        blank_title_help_form = blank_title_help_form
  /\
  DonationForm.loading
    (final (DonationForm.handleSubmit (Some sample_user) (fun _ => Rejected (js "TypeError")))
           sample_donation_form) = false.
Proof.
  split.
  - exact (proj1 (proj2 (proj1 submit_keeps_form_data (Some sample_user)
                    (fun _ => Resolved accepted) blank_title_help_form)) eq_refl).
  - refine (proj2 (proj2 (proj2 submit_keeps_form_data (Some sample_user)
                    (fun _ => Rejected (js "TypeError")) sample_donation_form)) _).
    discriminate.
Defined.

(** X3: the field checks run in a fixed order and the first one that
    fails decides the message: title, category, description, location
    and, for help requests, urgency. *)
Theorem first_failing_check_decides_message :
  (forall u insert (st : HelpRequestForm.State),
     let fd := HelpRequestForm.formData st in
     let ev := effects (HelpRequestForm.handleSubmit (Some u) insert) st in
     (JsString.blank (HelpRequestForm.title fd) ->
        ev = [ToastError (js "Please enter a title")]) /\
     (~ JsString.blank (HelpRequestForm.title fd) -> HelpRequestForm.category fd = [] ->
        ev = [ToastError (js "Please select a category")]) /\
     (~ JsString.blank (HelpRequestForm.title fd) -> HelpRequestForm.category fd <> [] ->
      JsString.blank (HelpRequestForm.description fd) ->
        ev = [ToastError (js "Please enter a description")]) /\
     (~ JsString.blank (HelpRequestForm.title fd) -> HelpRequestForm.category fd <> [] ->
      ~ JsString.blank (HelpRequestForm.description fd) ->
      JsString.blank (HelpRequestForm.location fd) ->
        ev = [ToastError (js "Please enter a location")]) /\
     (~ JsString.blank (HelpRequestForm.title fd) -> HelpRequestForm.category fd <> [] ->
      ~ JsString.blank (HelpRequestForm.description fd) ->
      ~ JsString.blank (HelpRequestForm.location fd) -> HelpRequestForm.urgency fd = [] ->
        ev = [ToastError (js "Please select an urgency level")]))
  /\
  (forall u insert (st : DonationForm.State),
     let fd := DonationForm.formData st in
     let ev := effects (DonationForm.handleSubmit (Some u) insert) st in
     (JsString.blank (DonationForm.title fd) ->
        ev = [ToastError (js "Please enter a title")]) /\
     (~ JsString.blank (DonationForm.title fd) -> DonationForm.category fd = [] ->
        ev = [ToastError (js "Please select a category")]) /\
     (~ JsString.blank (DonationForm.title fd) -> DonationForm.category fd <> [] ->
      JsString.blank (DonationForm.description fd) ->
        ev = [ToastError (js "Please enter a description")]) /\
     (~ JsString.blank (DonationForm.title fd) -> DonationForm.category fd <> [] ->
      ~ JsString.blank (DonationForm.description fd) ->
      JsString.blank (DonationForm.location fd) ->
        ev = [ToastError (js "Please enter a location")])).
Proof.
  split; intros u insert st fd ev; subst fd ev; submit_run;
    field_checks; cbn; split_and!; intros; try done; try tauto.
Qed.

Lemma first_failing_check_decides_message_witness :
  effects (HelpRequestForm.handleSubmit (Some sample_user) (fun _ => Resolved accepted))
          blank_title_help_form
  = [ToastError (js "Please enter a title")]
  /\
  effects (DonationForm.handleSubmit (Some sample_user) (fun _ => Resolved accepted))
          blank_title_donation_form
  = [ToastError (js "Please enter a title")].
Proof.
  split.
  - refine (proj1 (proj1 first_failing_check_decides_message sample_user
                     (fun _ => Resolved accepted) blank_title_help_form) _).
    unfold JsString.blank. vm_compute. by repeat constructor.
  - refine (proj1 (proj2 first_failing_check_decides_message sample_user
                     (fun _ => Resolved accepted) blank_title_donation_form) _).
    constructor.
Defined.

(** X4: every row a submit handler sends carries the id of the signed-in
    user, a title, description and location that are non-empty and free
    of whitespace at both ends, and the non-empty category (and urgency)
    of the form, untrimmed. *)
Theorem inserted_row_is_well_formed :
  (forall user insert (st : HelpRequestForm.State) row,
     Sent (InsertHelpRequest row) ∈ effects (HelpRequestForm.handleSubmit user insert) st ->
     (exists u, user = Some u /\ hri_user_id row = user_id_of u) /\
     (hri_title row <> [] /\ trimmed (hri_title row)) /\
     (hri_description row <> [] /\ trimmed (hri_description row)) /\
     (hri_location row <> [] /\ trimmed (hri_location row)) /\
     (hri_category row <> [] /\
      hri_category row = HelpRequestForm.category (HelpRequestForm.formData st)) /\
     (hri_urgency row <> [] /\
      hri_urgency row = HelpRequestForm.urgency (HelpRequestForm.formData st)))
  /\
  (forall user insert (st : DonationForm.State) row,
     Sent (InsertDonation row) ∈ effects (DonationForm.handleSubmit user insert) st ->
     (exists u, user = Some u /\ di_user_id row = user_id_of u) /\
     (di_title row <> [] /\ trimmed (di_title row)) /\
     (di_description row <> [] /\ trimmed (di_description row)) /\
     (di_location row <> [] /\ trimmed (di_location row)) /\
     (di_category row <> [] /\
      di_category row = DonationForm.category (DonationForm.formData st))).
Proof.
  split; intros user insert st row Hin.
  - destruct (help_submit_sent _ _ _ _ Hin) as (u & -> & Hc & ->).
    unfold HelpRequestForm.incomplete in Hc. simpl.
    split_and!; try apply trim_trimmed; try apply trim_nonempty; try tauto.
    by exists u.
  - destruct (donation_submit_sent _ _ _ _ Hin) as (u & -> & Hc & ->).
    unfold DonationForm.incomplete in Hc. simpl.
    split_and!; try apply trim_trimmed; try apply trim_nonempty; try tauto.
    by exists u.
Qed.

Lemma inserted_row_is_well_formed_witness :
  hri_title (HelpRequestForm.insert_row sample_user (HelpRequestForm.formData sample_help_form)) <> []
  /\
  trimmed (di_title (DonationForm.insert_row sample_user (DonationForm.formData sample_donation_form))).
Proof.
  split.
  - refine (proj1 (proj1 (proj2 (proj1 inserted_row_is_well_formed (Some sample_user)
              (fun _ => Resolved accepted) sample_help_form _ _)))).
    vm_compute. constructor.
  - refine (proj2 (proj1 (proj2 (proj2 inserted_row_is_well_formed (Some sample_user)
              (fun _ => Resolved accepted) sample_donation_form _ _)))).
    vm_compute. constructor.
Defined.

(** X5: a submit navigates in two cases only: to "/login" when nobody is
    signed in, and to the form's confirmation route when the insert was
    answered without error.  A failed field check, an error answer and a
    rejected promise navigate nowhere. *)
Theorem submit_navigation :
  (forall user insert (st : HelpRequestForm.State) p,
     let fd := HelpRequestForm.formData st in
     Navigate p ∈ effects (HelpRequestForm.handleSubmit user insert) st <->
     (user = None /\ p = js "/login") \/
     (exists u res, user = Some u /\ ~ HelpRequestForm.incomplete fd /\
        insert (HelpRequestForm.insert_row u fd) = Resolved res /\ error res = None /\
        p = HelpRequestForm.success_route))
  /\
  (forall user insert (st : DonationForm.State) p,
     let fd := DonationForm.formData st in
     Navigate p ∈ effects (DonationForm.handleSubmit user insert) st <->
     (user = None /\ p = js "/login") \/
     (exists u res, user = Some u /\ ~ DonationForm.incomplete fd /\
        insert (DonationForm.insert_row u fd) = Resolved res /\ error res = None /\
        p = DonationForm.success_route)).
Proof.
  split; intros user insert st p fd; subst fd.
  - destruct user as [u|].
    + destruct (help_incomplete_dec st) as [Hi | Hc].
      * destruct (help_submit_blocked_at insert st u Hi) as (msg & _ & ->).
        split; [intros H; in_effects H |].
        intros [[? _] | (u' & res' & [= <-] & Hc' & _)]; done.
      * destruct (insert (HelpRequestForm.insert_row u (HelpRequestForm.formData st)))
          as [res | reason] eqn:Hr; [destruct (error res) as [e|] eqn:He |].
        -- rewrite (help_submit_rejected_at insert st u res e Hc Hr He).
           split; [intros H; in_effects H |].
           intros [[? _] | (u' & res' & [= <-] & _ & Hr' & He' & _)]; [done |].
           rewrite Hr in Hr'. injection Hr' as <-. congruence.
        -- rewrite (help_submit_accepted_at insert st u res Hc Hr He).
           split.
           ++ intros H. in_effects H. injection H as <-. right. by exists u, res.
           ++ intros [[? _] | (u' & res' & _ & _ & _ & _ & ->)]; [done |].
              apply list_elem_of_In. simpl. tauto.
        -- rewrite (help_submit_exception_at insert st u reason Hc Hr).
           split; [intros H; in_effects H |].
           intros [[? _] | (u' & res' & [= <-] & _ & Hr' & _)]; [done |].
           rewrite Hr in Hr'. discriminate.
    + rewrite help_submit_signed_out. split.
      * intros H. in_effects H. injection H as <-. by left.
      * intros [[_ ->] | (? & ? & ? & _)]; [| done].
        apply list_elem_of_In. simpl. tauto.
  - destruct user as [u|].
    + destruct (donation_incomplete_dec st) as [Hi | Hc].
      * destruct (donation_submit_blocked_at insert st u Hi) as (msg & _ & ->).
        split; [intros H; in_effects H |].
        intros [[? _] | (u' & res' & [= <-] & Hc' & _)]; done.
      * destruct (insert (DonationForm.insert_row u (DonationForm.formData st)))
          as [res | reason] eqn:Hr; [destruct (error res) as [e|] eqn:He |].
        -- rewrite (donation_submit_rejected_at insert st u res e Hc Hr He).
           split; [intros H; in_effects H |].
           intros [[? _] | (u' & res' & [= <-] & _ & Hr' & He' & _)]; [done |].
           rewrite Hr in Hr'. injection Hr' as <-. congruence.
        -- rewrite (donation_submit_accepted_at insert st u res Hc Hr He).
           split.
           ++ intros H. in_effects H. injection H as <-. right. by exists u, res.
           ++ intros [[? _] | (u' & res' & _ & _ & _ & _ & ->)]; [done |].
              apply list_elem_of_In. simpl. tauto.
        -- rewrite (donation_submit_exception_at insert st u reason Hc Hr).
           split; [intros H; in_effects H |].
           intros [[? _] | (u' & res' & [= <-] & _ & Hr' & _)]; [done |].
           rewrite Hr in Hr'. discriminate.
    + rewrite donation_submit_signed_out. split.
      * intros H. in_effects H. injection H as <-. by left.
      * intros [[_ ->] | (? & ? & ? & _)]; [| done].
        apply list_elem_of_In. simpl. tauto.
Qed.

(** A concrete form is complete. *)
Ltac refute_incomplete :=
  unfold HelpRequestForm.incomplete, DonationForm.incomplete;
  let H := fresh in
  intros H;
  repeat match type of H with _ \/ _ => destruct H as [H | H] end;
  first [ apply falsy_trim_true in H; vm_compute in H; discriminate
        | vm_compute in H; discriminate ].

(** X6: when the insert promise rejects, the handler catches the
    exception: it shows the "unexpected error" toast, navigates nowhere,
    switches [loading] off and returns normally. *)
Theorem submit_exception_is_caught :
  (forall u insert (st : HelpRequestForm.State) reason,
     ~ HelpRequestForm.incomplete (HelpRequestForm.formData st) ->
     insert (HelpRequestForm.insert_row u (HelpRequestForm.formData st)) = Rejected reason ->
     let h := HelpRequestForm.handleSubmit (Some u) insert in
     completes h st /\
     List.filter is_toast (effects h st)
       = [ToastError (js "An unexpected error occurred. Please try again.")] /\
     List.filter is_navigate (effects h st) = [] /\
     HelpRequestForm.loading (final h st) = false)
  /\
  (forall u insert (st : DonationForm.State) reason,
     ~ DonationForm.incomplete (DonationForm.formData st) ->
     insert (DonationForm.insert_row u (DonationForm.formData st)) = Rejected reason ->
     let h := DonationForm.handleSubmit (Some u) insert in
     completes h st /\
     List.filter is_toast (effects h st)
       = [ToastError (js "An unexpected error occurred. Please try again.")] /\
     List.filter is_navigate (effects h st) = [] /\
     DonationForm.loading (final h st) = false).
Proof.
  split; intros u insert st reason Hc Hr h; subst h.
  - rewrite (help_submit_exception_at insert st u reason Hc Hr).
    unfold HelpRequestForm.incomplete in Hc. submit_run.
    field_checks; try tauto. rewrite Hr. cbn. eauto.
  - rewrite (donation_submit_exception_at insert st u reason Hc Hr).
    unfold DonationForm.incomplete in Hc. submit_run.
    field_checks; try tauto. rewrite Hr. cbn. eauto.
Qed.

Lemma submit_exception_is_caught_witness :
  List.filter is_toast
    (effects (HelpRequestForm.handleSubmit (Some sample_user) (fun _ => Rejected (js "TypeError")))
             sample_help_form)
  = [ToastError (js "An unexpected error occurred. Please try again.")]
  /\
  DonationForm.loading
    (final (DonationForm.handleSubmit (Some sample_user) (fun _ => Rejected (js "TypeError")))
           sample_donation_form) = false.
Proof.
  split.
  - refine (proj1 (proj2 (proj1 submit_exception_is_caught sample_user
              (fun _ => Rejected (js "TypeError")) sample_help_form (js "TypeError") _ eq_refl))).
    refute_incomplete.
  - refine (proj2 (proj2 (proj2 (proj2 submit_exception_is_caught sample_user
              (fun _ => Rejected (js "TypeError")) sample_donation_form (js "TypeError") _ eq_refl)))).
    refute_incomplete.
Defined.

(** ** List flow, further *)

(** Case analysis on the answers to the two requests of a fetch; every
    run of the fetch in the goal is replaced by its result. *)
Ltac fetch_cases txt pA rA :=
  let res := fresh "res" in
  let pres := fresh "pres" in
  let He := fresh "He" in
  let Hids := fresh "Hids" in
  let Hp := fresh "Hp" in
  let Hpe := fresh "Hpe" in
  destruct rA as [res | ?];
  [ destruct (error res) eqn:He;
    [ rewrite ?(fun st => fetch_rows_error txt pA st res _ He)
    | destruct (decide (Listing.userIds_of (data res) = [])) as [Hids | Hids];
      [ rewrite ?(fun st => fetch_no_ids txt pA st res He Hids)
      | destruct (pA (Listing.userIds_of (data res))) as [pres | ?] eqn:Hp;
        [ destruct (error pres) eqn:Hpe;
          [ rewrite ?(fun st => fetch_profiles_error txt pA st res pres _ He Hids Hp Hpe)
          | rewrite ?(fun st => fetch_profiles_ok txt pA st res pres He Hids Hp Hpe) ]
        | rewrite ?(fun st => fetch_profiles_rejected txt pA st res _ He Hids Hp) ] ] ]
  | rewrite ?(fun st => fetch_rows_rejected txt pA st _) ].

Lemma or_default_nonempty (o : option (list N)) (d : list N) : d <> [] -> or_default o d <> [].
Proof. intros Hd. unfold or_default, JsString.or_else. by destruct o as [[|c s]|]. Qed.

Lemma display_name_unique (ps : list Profile) p uid :
  NoDup (map profile_id ps) -> p ∈ ps -> profile_id p = uid ->
  display_name ps uid = or_default (full_name p) Anonymous.
Proof.
  intros Hnd Hin <-. unfold display_name.
  rewrite (lookup_full_name_unique ps p Hnd Hin).
  by destruct (full_name p) as [[|c n]|].
Qed.

Section ListingMore.
Import Listing.
Context {Row : Type} `{Columns Row}.
Variable txt : Texts.
Variable rowsAnswer : Awaited (Response (list Row)).
Variable profilesAnswer : list jsstring -> Awaited (Response (list Profile)).

Lemma withNames_rows m (rowsData : option (list Row)) :
  map row (withNames m rowsData) = default [] rowsData.
Proof.
  unfold withNames. rewrite map_map. simpl. apply map_id.
Qed.

Lemma withNames_names m (rowsData : option (list Row)) :
  Forall (fun x => userName x <> []) (withNames m rowsData).
Proof.
  unfold withNames. apply Forall_map, Forall_forall. intros r _. simpl.
  by apply or_default_nonempty.
Qed.

Lemma fetch_always (st : State Row) :
  let h := fetchRows txt rowsAnswer profilesAnswer in
  completes h st /\
  List.filter is_toast (effects h st) = [] /\
  List.filter is_navigate (effects h st) = [] /\
  loading (final h st) = false /\
  searchQuery (final h st) = searchQuery st /\
  selectedCategory (final h st) = selectedCategory st.
Proof.
  unfold completes, effects, final. cbv zeta.
  fetch_cases txt profilesAnswer rowsAnswer; simpl; split_and!; eauto.
Qed.

Lemma fetch_requests_sent (st : State Row) :
  let ev := effects (fetchRows txt rowsAnswer profilesAnswer) st in
  (answer_failed rowsAnswer -> requests_sent ev = [SelectByStatus (table txt) (status txt)]) /\
  (requests_sent ev = [SelectByStatus (table txt) (status txt)] \/
   exists ids, requests_sent ev = [SelectByStatus (table txt) (status txt); SelectProfilesIn ids]).
Proof.
  unfold effects. cbv zeta.
  fetch_cases txt profilesAnswer rowsAnswer; simpl; split; eauto; intros Hf; congruence.
Qed.

Lemma fetch_stores_fetched_rows (st : State Row) :
  let st' := final (fetchRows txt rowsAnswer profilesAnswer) st in
  (error_state st' = None ->
     exists res, rowsAnswer = Resolved res /\ error res = None /\
                 map row (rows st') = default [] (data res)) /\
  (error_state st' <> None ->
     error_state st' = Some (failed_to_load txt) /\ rows st' = rows st).
Proof.
  unfold final. cbv zeta.
  fetch_cases txt profilesAnswer rowsAnswer; simpl; split; try done;
    intros _; eexists; split_and!; try reflexivity; try done; apply withNames_rows.
Qed.

Lemma fetch_keeps_names_nonempty (st : State Row) :
  Forall (fun x => userName x <> []) (rows st) ->
  Forall (fun x => userName x <> [])
         (rows (final (fetchRows txt rowsAnswer profilesAnswer) st)).
Proof.
  intros Hst. unfold final.
  fetch_cases txt profilesAnswer rowsAnswer; simpl; try done; apply withNames_names.
Qed.

Lemma fetch_result_from_any_state (st st' : State Row) :
  let h := fetchRows txt rowsAnswer profilesAnswer in
  effects h st' = effects h st /\
  error_state (final h st') = error_state (final h st) /\
  (error_state (final h st) = None -> rows (final h st') = rows (final h st)).
Proof.
  unfold final, effects. cbv zeta.
  fetch_cases txt profilesAnswer rowsAnswer; simpl; done.
Qed.

Lemma fetch_idempotent (st : State Row) :
  let h := fetchRows txt rowsAnswer profilesAnswer in
  final h (final h st) = final h st.
Proof.
  unfold final. cbv zeta.
  fetch_cases txt profilesAnswer rowsAnswer; simpl; done.
Qed.

End ListingMore.

(** X7: a fetch of a listing page, whatever the two answers are (error
    answers and rejected promises included), returns without throwing,
    shows no toast, navigates nowhere, ends with [loading] off and leaves
    the search query and the selected category alone. *)
Theorem fetch_is_quiet_and_ends_loading :
  (forall rowsAnswer profilesAnswer (st : HelpRequests.State),
     let h := HelpRequests.fetchRequests rowsAnswer profilesAnswer in
     completes h st /\
     List.filter is_toast (effects h st) = [] /\
     List.filter is_navigate (effects h st) = [] /\
     Listing.loading (final h st) = false /\
     Listing.searchQuery (final h st) = Listing.searchQuery st /\
     Listing.selectedCategory (final h st) = Listing.selectedCategory st)
  /\
  (forall rowsAnswer profilesAnswer (st : Donations.State),
     let h := Donations.fetchDonations rowsAnswer profilesAnswer in
     completes h st /\
     List.filter is_toast (effects h st) = [] /\
     List.filter is_navigate (effects h st) = [] /\
     Listing.loading (final h st) = false /\
     Listing.searchQuery (final h st) = Listing.searchQuery st /\
     Listing.selectedCategory (final h st) = Listing.selectedCategory st).
Proof.
  split; intros rowsAnswer profilesAnswer st.
  - exact (fetch_always HelpRequests.texts rowsAnswer profilesAnswer st).
  - exact (fetch_always Donations.texts rowsAnswer profilesAnswer st).
Qed.

(** X8: a fetch sends the rows query first (open help requests,
    available donations) and at most one profiles query after it; when
    the rows fetch fails or its promise rejects, no profiles query is
    sent at all. *)
Theorem fetch_sends_rows_query_first :
  (forall rowsAnswer profilesAnswer (st : HelpRequests.State),
     let ev := effects (HelpRequests.fetchRequests rowsAnswer profilesAnswer) st in
     let rows_query := SelectByStatus (js "help_requests") (js "open") in
     (answer_failed rowsAnswer -> requests_sent ev = [rows_query]) /\
     (requests_sent ev = [rows_query] \/
      exists ids, requests_sent ev = [rows_query; SelectProfilesIn ids]))
  /\
  (forall rowsAnswer profilesAnswer (st : Donations.State),
     let ev := effects (Donations.fetchDonations rowsAnswer profilesAnswer) st in
     let rows_query := SelectByStatus (js "donations") (js "available") in
     (answer_failed rowsAnswer -> requests_sent ev = [rows_query]) /\
     (requests_sent ev = [rows_query] \/
      exists ids, requests_sent ev = [rows_query; SelectProfilesIn ids])).
Proof.
  split; intros rowsAnswer profilesAnswer st.
  - exact (fetch_requests_sent HelpRequests.texts rowsAnswer profilesAnswer st).
  - exact (fetch_requests_sent Donations.texts rowsAnswer profilesAnswer st).
Qed.

Lemma fetch_sends_rows_query_first_witness :
  requests_sent
    (effects (HelpRequests.fetchRequests (Resolved failed_answer)
                (fun _ => Resolved (rows_answer [named_profile]))) idle_requests_page)
  = [SelectByStatus (js "help_requests") (js "open")]
  /\
  requests_sent
    (effects (Donations.fetchDonations (Rejected (js "TypeError"))
                (fun _ => Resolved (rows_answer [named_profile]))) idle_donations_page)
  = [SelectByStatus (js "donations") (js "available")].
Proof.
  split.
  - refine (proj1 (proj1 fetch_sends_rows_query_first (Resolved failed_answer)
              (fun _ => Resolved (rows_answer [named_profile])) idle_requests_page) _).
    discriminate.
  - exact (proj1 (proj2 fetch_sends_rows_query_first (Rejected (js "TypeError"))
              (fun _ => Resolved (rows_answer [named_profile])) idle_donations_page) I).
Defined.

(** X9: a fetch is all-or-nothing on the stored list.  When it ends
    outside the error state the stored rows are exactly the fetched rows,
    one entry each and in the fetched order, whatever the profiles answer
    was; when it ends in the error state the error text is the page's
    fixed message and the rows stored before are kept. *)
Theorem fetch_stores_rows_or_keeps_them :
  (forall rowsAnswer profilesAnswer (st : HelpRequests.State),
     let st' := final (HelpRequests.fetchRequests rowsAnswer profilesAnswer) st in
     (Listing.error_state st' = None ->
        exists res, rowsAnswer = Resolved res /\ error res = None /\
                    map Listing.row (Listing.rows st') = default [] (data res)) /\
     (Listing.error_state st' <> None ->
        Listing.error_state st' = Some (js "Failed to load help requests. Please try again.") /\
        Listing.rows st' = Listing.rows st))
  /\
  (forall rowsAnswer profilesAnswer (st : Donations.State),
     let st' := final (Donations.fetchDonations rowsAnswer profilesAnswer) st in
     (Listing.error_state st' = None ->
        exists res, rowsAnswer = Resolved res /\ error res = None /\
                    map Listing.row (Listing.rows st') = default [] (data res)) /\
     (Listing.error_state st' <> None ->
        Listing.error_state st' = Some (js "Failed to load donations. Please try again.") /\
        Listing.rows st' = Listing.rows st)).
Proof.
  split; intros rowsAnswer profilesAnswer st.
  - exact (fetch_stores_fetched_rows HelpRequests.texts rowsAnswer profilesAnswer st).
  - exact (fetch_stores_fetched_rows Donations.texts rowsAnswer profilesAnswer st).
Qed.

Lemma fetch_stores_rows_or_keeps_them_witness :
  Listing.rows
    (final (HelpRequests.fetchRequests (Resolved failed_answer)
              (fun _ => Resolved (rows_answer [named_profile]))) loaded_requests_page)
  = Listing.rows loaded_requests_page
  /\
  exists res,
    Resolved (rows_answer [sample_donation]) = Resolved res /\ error res = None /\
    map Listing.row
      (Listing.rows
         (final (Donations.fetchDonations (Resolved (rows_answer [sample_donation]))
                   (fun _ => Resolved failed_answer)) idle_donations_page))
    = default [] (data res).
Proof.
  split.
  - refine (proj2 (proj2 (proj1 fetch_stores_rows_or_keeps_them (Resolved failed_answer)
              (fun _ => Resolved (rows_answer [named_profile])) loaded_requests_page) _)).
    discriminate.
  - exact (proj1 (proj2 fetch_stores_rows_or_keeps_them (Resolved (rows_answer [sample_donation]))
              (fun _ => Resolved failed_answer) idle_donations_page) eq_refl).
Defined.

(** X10: display names are never empty.  If every stored row has a
    non-empty [userName] before a fetch (as in the initial, empty list),
    every stored row has one after it, whatever the answers were. *)
Theorem fetch_keeps_display_names_nonempty :
  (forall rowsAnswer profilesAnswer (st : HelpRequests.State),
     Forall (fun x => Listing.userName x <> []) (Listing.rows st) ->
     Forall (fun x => Listing.userName x <> [])
            (Listing.rows (final (HelpRequests.fetchRequests rowsAnswer profilesAnswer) st)))
  /\
  (forall rowsAnswer profilesAnswer (st : Donations.State),
     Forall (fun x => Listing.userName x <> []) (Listing.rows st) ->
     Forall (fun x => Listing.userName x <> [])
            (Listing.rows (final (Donations.fetchDonations rowsAnswer profilesAnswer) st))).
Proof.
  split; intros rowsAnswer profilesAnswer st.
  - exact (fetch_keeps_names_nonempty HelpRequests.texts rowsAnswer profilesAnswer st).
  - exact (fetch_keeps_names_nonempty Donations.texts rowsAnswer profilesAnswer st).
Qed.

Lemma fetch_keeps_display_names_nonempty_witness :
  Forall (fun x => Listing.userName x <> [])
    (Listing.rows
       (final (HelpRequests.fetchRequests (Resolved (rows_answer [sample_request; other_request]))
                 (fun _ => Resolved (rows_answer [empty_name_profile; absent_name_profile])))
              idle_requests_page))
  /\
  Forall (fun x => Listing.userName x <> [])
    (Listing.rows
       (final (Donations.fetchDonations (Resolved failed_answer)
                 (fun _ => Resolved (rows_answer []))) loaded_donations_page)).
Proof.
  split.
  - apply (proj1 fetch_keeps_display_names_nonempty). constructor.
  - apply (proj2 fetch_keeps_display_names_nonempty). by repeat constructor.
Defined.

(** X11: fetching again.  What a fetch sends and whether it fails do not
    depend on the state it starts from, and a fetch that succeeds stores
    the same rows from any state, so "Try Again" after a failure recovers
    fully; running the same fetch twice gives the state of running it
    once. *)
Theorem fetch_again :
  (forall rowsAnswer profilesAnswer (st st' : HelpRequests.State),
     let h := HelpRequests.fetchRequests rowsAnswer profilesAnswer in
     effects h st' = effects h st /\
     Listing.error_state (final h st') = Listing.error_state (final h st) /\
     (Listing.error_state (final h st) = None ->
        Listing.rows (final h st') = Listing.rows (final h st)) /\
     final h (final h st) = final h st)
  /\
  (forall rowsAnswer profilesAnswer (st st' : Donations.State),
     let h := Donations.fetchDonations rowsAnswer profilesAnswer in
     effects h st' = effects h st /\
     Listing.error_state (final h st') = Listing.error_state (final h st) /\
     (Listing.error_state (final h st) = None ->
        Listing.rows (final h st') = Listing.rows (final h st)) /\
     final h (final h st) = final h st).
Proof.
  split; intros rowsAnswer profilesAnswer st st' h; subst h.
  - destruct (fetch_result_from_any_state HelpRequests.texts rowsAnswer profilesAnswer st st')
      as (? & ? & ?).
    split_and!; try done.
    exact (fetch_idempotent HelpRequests.texts rowsAnswer profilesAnswer st).
  - destruct (fetch_result_from_any_state Donations.texts rowsAnswer profilesAnswer st st')
      as (? & ? & ?).
    split_and!; try done.
    exact (fetch_idempotent Donations.texts rowsAnswer profilesAnswer st).
Qed.

Lemma fetch_again_witness :
  Listing.rows
    (final (HelpRequests.fetchRequests (Resolved (rows_answer [other_request]))
              (fun _ => Resolved (rows_answer [named_profile]))) failed_requests_page)
  = Listing.rows
      (final (HelpRequests.fetchRequests (Resolved (rows_answer [other_request]))
                (fun _ => Resolved (rows_answer [named_profile]))) idle_requests_page).
Proof.
  exact (proj1 (proj2 (proj2 (proj1 fetch_again (Resolved (rows_answer [other_request]))
           (fun _ => Resolved (rows_answer [named_profile]))
           idle_requests_page failed_requests_page))) eq_refl).
Defined.

(** X12: with distinct profile ids the merge does not depend on the
    order of the profile list: a fetched row whose user has the profile
    [p] is stored with [p]'s full name, or with "Anonymous" when that
    name is absent or empty, and a row whose user has no profile is
    stored with "Anonymous". *)
Theorem merge_by_profile_membership :
  (forall (st : HelpRequests.State) rowsData profiles profilesAnswer r,
     NoDup (map profile_id profiles) ->
     profilesAnswer (Listing.userIds_of (Some rowsData)) = Resolved (rows_answer profiles) ->
     r ∈ rowsData ->
     let stored := Listing.rows (final (HelpRequests.fetchRequests
                     (Resolved (rows_answer rowsData)) profilesAnswer) st) in
     (forall p, p ∈ profiles -> profile_id p = HelpRequests.user_id r ->
        {| Listing.row := r; Listing.userName := or_default (full_name p) Anonymous |} ∈ stored) /\
     ((forall p, p ∈ profiles -> profile_id p <> HelpRequests.user_id r) ->
        {| Listing.row := r; Listing.userName := Anonymous |} ∈ stored))
  /\
  (forall (st : Donations.State) rowsData profiles profilesAnswer r,
     NoDup (map profile_id profiles) ->
     profilesAnswer (Listing.userIds_of (Some rowsData)) = Resolved (rows_answer profiles) ->
     r ∈ rowsData ->
     let stored := Listing.rows (final (Donations.fetchDonations
                     (Resolved (rows_answer rowsData)) profilesAnswer) st) in
     (forall p, p ∈ profiles -> profile_id p = Donations.user_id r ->
        {| Listing.row := r; Listing.userName := or_default (full_name p) Anonymous |} ∈ stored) /\
     ((forall p, p ∈ profiles -> profile_id p <> Donations.user_id r) ->
        {| Listing.row := r; Listing.userName := Anonymous |} ∈ stored)).
Proof.
  split; intros st rowsData profiles profilesAnswer r Hnd Hp Hr stored; subst stored.
  - unfold HelpRequests.fetchRequests.
    rewrite (fetch_merge HelpRequests.texts profilesAnswer st
               (rows_answer rowsData) (rows_answer profiles) eq_refl Hp eq_refl).
    simpl. split.
    + intros p Hin Hid. apply list_elem_of_fmap. exists r. split; [| done].
      f_equal. symmetry. by apply display_name_unique.
    + intros Hno. apply list_elem_of_fmap. exists r. split; [| done].
      f_equal. unfold display_name. apply lookup_full_name_None in Hno.
      simpl in Hno. by rewrite Hno.
  - unfold Donations.fetchDonations.
    rewrite (fetch_merge Donations.texts profilesAnswer st
               (rows_answer rowsData) (rows_answer profiles) eq_refl Hp eq_refl).
    simpl. split.
    + intros p Hin Hid. apply list_elem_of_fmap. exists r. split; [| done].
      f_equal. symmetry. by apply display_name_unique.
    + intros Hno. apply list_elem_of_fmap. exists r. split; [| done].
      f_equal. unfold display_name. apply lookup_full_name_None in Hno.
      simpl in Hno. by rewrite Hno.
Qed.

Lemma merge_by_profile_membership_witness :
  {| Listing.row := sample_request; Listing.userName := js "Asha" |}
  ∈ Listing.rows
      (final (HelpRequests.fetchRequests (Resolved (rows_answer [other_request; sample_request]))
                (fun _ => Resolved (rows_answer [absent_name_profile; named_profile])))
             idle_requests_page)
  /\
  {| Listing.row := sample_donation; Listing.userName := js "Anonymous" |}
  ∈ Listing.rows
      (final (Donations.fetchDonations (Resolved (rows_answer [sample_donation]))
                (fun _ => Resolved (rows_answer [absent_name_profile])))
             idle_donations_page).
Proof.
  split.
  - refine (proj1 (proj1 merge_by_profile_membership idle_requests_page
              [other_request; sample_request] [absent_name_profile; named_profile]
              (fun _ => Resolved (rows_answer [absent_name_profile; named_profile]))
              sample_request _ eq_refl _) named_profile _ eq_refl).
    + vm_compute. repeat constructor; intros Hin; inversion Hin; subst;
        try discriminate; match goal with H : _ ∈ [] |- _ => inversion H end.
    + right. left.
    + right. left.
  - refine (proj2 (proj2 merge_by_profile_membership idle_donations_page
              [sample_donation] [absent_name_profile]
              (fun _ => Resolved (rows_answer [absent_name_profile]))
              sample_donation _ eq_refl _) _).
    + repeat constructor. intros Hin. inversion Hin.
    + left.
    + intros p Hin. apply list_elem_of_singleton in Hin. subst p. discriminate.
Defined.

(** ** Filtering, further *)

Lemma substring_trans (a b c : list N) :
  JsString.substring a b -> JsString.substring b c -> JsString.substring a c.
Proof.
  intros (p1 & q1 & ->) (p2 & q2 & ->).
  exists (p2 ++ p1), (q1 ++ q2). by rewrite <- !app_assoc.
Qed.

Lemma includes_mono (s a b : list N) :
  JsString.substring a b -> JsString.includes s b = true -> JsString.includes s a = true.
Proof. rewrite !includes_spec. apply substring_trans. Qed.

Lemma filter_sublist_impl {A} (f g : A -> bool) (l : list A) :
  (forall x, f x = true -> g x = true) ->
  List.filter f l `sublist_of` List.filter g l.
Proof.
  intros Himp. induction l as [|x l IH]; simpl; [constructor |].
  destruct (f x) eqn:Ef.
  - rewrite (Himp x Ef). by constructor.
  - destruct (g x); [by constructor | done].
Qed.

Section FilterMore.
Import Listing.
Context {Row : Type} `{Columns Row}.
Variable toLowerCase : jsstring -> jsstring.

Lemma filteredRows_narrows (s1 s2 : State Row) :
  rows s1 = rows s2 -> selectedCategory s1 = selectedCategory s2 ->
  JsString.substring (toLowerCase (searchQuery s1)) (toLowerCase (searchQuery s2)) ->
  filteredRows toLowerCase s2 `sublist_of` filteredRows toLowerCase s1.
Proof.
  intros Hr Hc Hq. unfold filteredRows. rewrite Hr, Hc.
  apply filter_sublist_impl. intros x.
  rewrite !andb_true_iff. intros [Hs Hcat]. split; [| done].
  unfold matchesSearch in *. apply orb_true_iff in Hs. apply orb_true_iff.
  destruct Hs as [Hs | Hs].
  - left. by apply (includes_mono _ _ _ Hq).
  - right. destruct (description (row x)); [| done]. by apply (includes_mono _ _ _ Hq).
Qed.

Lemma filteredRows_category (s : State Row) :
  selectedCategory s <> js "All" ->
  Forall (fun x => category (row x) = selectedCategory s) (filteredRows toLowerCase s).
Proof.
  intros Hne. apply Forall_forall. intros x Hx.
  apply list_elem_of_In, filter_In in Hx as [_ Hx].
  apply andb_true_iff in Hx as [_ Hx]. unfold matchesCategory in Hx.
  apply orb_true_iff in Hx as [Hx | Hx]; apply eqb_true in Hx; done.
Qed.

Lemma filteredRows_all_categories (s1 s2 : State Row) :
  rows s1 = rows s2 -> searchQuery s1 = searchQuery s2 ->
  selectedCategory s1 = js "All" ->
  filteredRows toLowerCase s2 `sublist_of` filteredRows toLowerCase s1.
Proof.
  intros Hr Hq Hc. unfold filteredRows. rewrite Hr, Hq, Hc.
  apply filter_sublist_impl. intros x.
  rewrite !andb_true_iff. intros [Hs _]. split; [done |].
  unfold matchesCategory. by rewrite eqb_refl.
Qed.

End FilterMore.

(** X13: a longer query narrows the result.  With the same stored rows
    and category, if the lower-cased first query occurs in the lower-cased
    second one, every item shown for the second query is shown for the
    first, in the same order. *)
Theorem longer_query_narrows (toLowerCase : jsstring -> jsstring) :
  (forall s1 s2 : HelpRequests.State,
     Listing.rows s1 = Listing.rows s2 ->
     Listing.selectedCategory s1 = Listing.selectedCategory s2 ->
     JsString.substring (toLowerCase (Listing.searchQuery s1))
                        (toLowerCase (Listing.searchQuery s2)) ->
     HelpRequests.filteredRequests toLowerCase s2
       `sublist_of` HelpRequests.filteredRequests toLowerCase s1)
  /\
  (forall s1 s2 : Donations.State,
     Listing.rows s1 = Listing.rows s2 ->
     Listing.selectedCategory s1 = Listing.selectedCategory s2 ->
     JsString.substring (toLowerCase (Listing.searchQuery s1))
                        (toLowerCase (Listing.searchQuery s2)) ->
     Donations.filteredDonations toLowerCase s2
       `sublist_of` Donations.filteredDonations toLowerCase s1).
Proof.
  split; intros s1 s2.
  - exact (filteredRows_narrows toLowerCase s1 s2).
  - exact (filteredRows_narrows toLowerCase s1 s2).
Qed.

Lemma longer_query_narrows_witness :
  HelpRequests.filteredRequests JsString.ascii_toLowerCase
    (searching_requests_page (js "Winter Coat") (js "All"))
  `sublist_of`
  HelpRequests.filteredRequests JsString.ascii_toLowerCase
    (searching_requests_page (js "COAT") (js "All"))
  /\
  Donations.filteredDonations JsString.ascii_toLowerCase
    (searching_donations_page (js "school books") (js "Education"))
  `sublist_of`
  Donations.filteredDonations JsString.ascii_toLowerCase
    (searching_donations_page (js "Book") (js "Education")).
Proof.
  split.
  - refine (proj1 (longer_query_narrows JsString.ascii_toLowerCase)
              (searching_requests_page (js "COAT") (js "All"))
              (searching_requests_page (js "Winter Coat") (js "All")) eq_refl eq_refl _).
    by exists (js "winter "), [].
  - refine (proj2 (longer_query_narrows JsString.ascii_toLowerCase)
              (searching_donations_page (js "Book") (js "Education"))
              (searching_donations_page (js "school books") (js "Education")) eq_refl eq_refl _).
    by exists (js "school "), (js "s").
Defined.

(** X14: the category filter.  With a category other than "All"
    selected, every item shown has exactly that category; and for the
    same rows and query, what is shown under any category is part of what
    is shown under "All". *)
Theorem category_filter (toLowerCase : jsstring -> jsstring) :
  (forall s : HelpRequests.State,
     Listing.selectedCategory s <> js "All" ->
     Forall (fun x => HelpRequests.category (Listing.row x) = Listing.selectedCategory s)
            (HelpRequests.filteredRequests toLowerCase s))
  /\
  (forall s1 s2 : HelpRequests.State,
     Listing.rows s1 = Listing.rows s2 -> Listing.searchQuery s1 = Listing.searchQuery s2 ->
     Listing.selectedCategory s1 = js "All" ->
     HelpRequests.filteredRequests toLowerCase s2
       `sublist_of` HelpRequests.filteredRequests toLowerCase s1)
  /\
  (forall s : Donations.State,
     Listing.selectedCategory s <> js "All" ->
     Forall (fun x => Donations.category (Listing.row x) = Listing.selectedCategory s)
            (Donations.filteredDonations toLowerCase s))
  /\
  (forall s1 s2 : Donations.State,
     Listing.rows s1 = Listing.rows s2 -> Listing.searchQuery s1 = Listing.searchQuery s2 ->
     Listing.selectedCategory s1 = js "All" ->
     Donations.filteredDonations toLowerCase s2
       `sublist_of` Donations.filteredDonations toLowerCase s1).
Proof.
  split_and!.
  - intros s. exact (filteredRows_category toLowerCase s).
  - intros s1 s2. exact (filteredRows_all_categories toLowerCase s1 s2).
  - intros s. exact (filteredRows_category toLowerCase s).
  - intros s1 s2. exact (filteredRows_all_categories toLowerCase s1 s2).
Qed.

Lemma category_filter_witness :
  Forall (fun x => HelpRequests.category (Listing.row x) = js "Education")
    (HelpRequests.filteredRequests JsString.ascii_toLowerCase
       (searching_requests_page [] (js "Education")))
  /\
  Donations.filteredDonations JsString.ascii_toLowerCase
    (searching_donations_page (js "book") (js "Food"))
  `sublist_of`
  Donations.filteredDonations JsString.ascii_toLowerCase
    (searching_donations_page (js "book") (js "All")).
Proof.
  split.
  - refine (proj1 (category_filter JsString.ascii_toLowerCase)
              (searching_requests_page [] (js "Education")) _).
    discriminate.
  - exact (proj2 (proj2 (proj2 (category_filter JsString.ascii_toLowerCase)))
             (searching_donations_page (js "book") (js "All"))
             (searching_donations_page (js "book") (js "Food")) eq_refl eq_refl eq_refl).
Defined.

(** ** What is rendered *)

Section ViewFacts.
Import Listing.
Context {Row Card : Type} `{Columns Row}.
Variable vtxt : ListingView.Texts.
Variable toLowerCase : jsstring -> jsstring.
Variable card : Named Row -> Card.

Lemma render_cases (st : State Row) :
  let filtered := filteredRows toLowerCase st in
  (truthy (error_state st) = true ->
     ListingView.render vtxt toLowerCase card st
       = [ListingView.ErrorBlock (default [] (error_state st))]) /\
  (truthy (error_state st) = false -> loading st = true ->
     ListingView.render vtxt toLowerCase card st
       = [ListingView.LoadingBlock (ListingView.loading_text vtxt)]) /\
  (truthy (error_state st) = false -> loading st = false -> filtered <> [] ->
     ListingView.render vtxt toLowerCase card st
       = [ListingView.GridBlock (map card filtered)]) /\
  (truthy (error_state st) = false -> loading st = false -> filtered = [] ->
     ListingView.render vtxt toLowerCase card st
       = [ListingView.EmptyBlock (ListingView.none_found vtxt)
            (match rows st with
             | [] => ListingView.be_first vtxt
             | _ :: _ => js "Try adjusting your search or filters"
             end)]).
Proof.
  unfold ListingView.render, ListingView.when. cbv zeta.
  split_and!.
  - intros ->. by destruct (loading st).
  - by intros -> ->.
  - intros -> -> Hne. by destruct (filteredRows toLowerCase st).
  - intros -> -> ->. by destruct (rows st).
Qed.

Lemma render_one_block (st : State Row) :
  exists b, ListingView.render vtxt toLowerCase card st = [b].
Proof.
  destruct (render_cases st) as (H1 & H2 & H3 & H4).
  destruct (truthy (error_state st)); [rewrite H1 by done; eauto |].
  destruct (loading st); [rewrite H2 by done; eauto |].
  destruct (filteredRows toLowerCase st) eqn:E; [rewrite H4 by done | rewrite H3 by done]; eauto.
Qed.

End ViewFacts.

(** X15: the four conditional blocks of a listing page (error, loading,
    grid, empty) exclude each other and cover every state: exactly one is
    rendered.  The error block wins over everything; without an error the
    loading block shows while loading; otherwise the grid shows one card
    per filtered item, in order, or the empty block shows, whose hint is
    "Try adjusting your search or filters" when rows are stored and the
    page's invitation when none is. *)
Theorem exactly_one_block_is_rendered (fmt toLowerCase : jsstring -> jsstring) :
  (forall st : HelpRequests.State,
     let filtered := HelpRequests.filteredRequests toLowerCase st in
     let view := HelpRequestsView.render fmt toLowerCase st in
     (exists b, view = [b]) /\
     (truthy (Listing.error_state st) = true ->
        view = [ListingView.ErrorBlock (default [] (Listing.error_state st))]) /\
     (truthy (Listing.error_state st) = false -> Listing.loading st = true ->
        view = [ListingView.LoadingBlock (js "Loading help requests...")]) /\
     (truthy (Listing.error_state st) = false -> Listing.loading st = false ->
      filtered <> [] ->
        view = [ListingView.GridBlock (map (HelpRequestsView.card fmt) filtered)]) /\
     (truthy (Listing.error_state st) = false -> Listing.loading st = false ->
      filtered = [] ->
        view = [ListingView.EmptyBlock (js "No help requests found")
                  (match Listing.rows st with
                   | [] => js "Be the first to submit a request!"
                   | _ :: _ => js "Try adjusting your search or filters"
                   end)]))
  /\
  (forall st : Donations.State,
     let filtered := Donations.filteredDonations toLowerCase st in
     let view := DonationsView.render fmt toLowerCase st in
     (exists b, view = [b]) /\
     (truthy (Listing.error_state st) = true ->
        view = [ListingView.ErrorBlock (default [] (Listing.error_state st))]) /\
     (truthy (Listing.error_state st) = false -> Listing.loading st = true ->
        view = [ListingView.LoadingBlock (js "Loading donations...")]) /\
     (truthy (Listing.error_state st) = false -> Listing.loading st = false ->
      filtered <> [] ->
        view = [ListingView.GridBlock (map (DonationsView.card fmt) filtered)]) /\
     (truthy (Listing.error_state st) = false -> Listing.loading st = false ->
      filtered = [] ->
        view = [ListingView.EmptyBlock (js "No donations found")
                  (match Listing.rows st with
                   | [] => js "Be the first to offer a donation!"
                   | _ :: _ => js "Try adjusting your search or filters"
                   end)])).
Proof.
  split; intros st filtered view; subst filtered view.
  - split.
    + exact (render_one_block HelpRequestsView.texts toLowerCase (HelpRequestsView.card fmt) st).
    + exact (render_cases HelpRequestsView.texts toLowerCase (HelpRequestsView.card fmt) st).
  - split.
    + exact (render_one_block DonationsView.texts toLowerCase (DonationsView.card fmt) st).
    + exact (render_cases DonationsView.texts toLowerCase (DonationsView.card fmt) st).
Qed.

Lemma exactly_one_block_is_rendered_witness :
  HelpRequestsView.render (fun s => s) JsString.ascii_toLowerCase failed_requests_page
  = [ListingView.ErrorBlock (js "Failed to load help requests. Please try again.")]
  /\
  DonationsView.render (fun s => s) JsString.ascii_toLowerCase
    (searching_donations_page (js "sofa") (js "All"))
  = [ListingView.EmptyBlock (js "No donations found") (js "Try adjusting your search or filters")].
Proof.
  split.
  - exact (proj1 (proj2 (proj1 (exactly_one_block_is_rendered (fun s => s)
             JsString.ascii_toLowerCase) failed_requests_page)) eq_refl).
  - exact (proj2 (proj2 (proj2 (proj2 (proj2 (exactly_one_block_is_rendered (fun s => s)
             JsString.ascii_toLowerCase) (searching_donations_page (js "sofa") (js "All"))))))
             eq_refl eq_refl eq_refl).
Defined.

Section FetchThenRender.
Import Listing.
Context {Row Card : Type} `{Columns Row}.
Variable txt : Texts.
Variable vtxt : ListingView.Texts.
Variable toLowerCase : jsstring -> jsstring.
Variable card : Named Row -> Card.

Lemma render_after_failed_fetch rowsAnswer profilesAnswer (st : State Row) :
  failed_to_load txt <> [] ->
  answer_failed rowsAnswer ->
  ListingView.render vtxt toLowerCase card (final (fetchRows txt rowsAnswer profilesAnswer) st)
  = [ListingView.ErrorBlock (failed_to_load txt)].
Proof.
  intros Hmsg Hf.
  destruct (render_cases vtxt toLowerCase card
              (final (fetchRows txt rowsAnswer profilesAnswer) st)) as (H1 & _).
  revert H1. unfold final.
  fetch_cases txt profilesAnswer rowsAnswer; simpl in *; try done;
    intros H1; apply H1; by destruct (failed_to_load txt).
Qed.

Lemma render_after_fetch rowsData profiles profilesAnswer (st : State Row) :
  toLowerCase [] = [] ->
  searchQuery st = [] -> selectedCategory st = js "All" ->
  profilesAnswer (userIds_of (Some rowsData)) = Resolved (rows_answer profiles) ->
  ListingView.render vtxt toLowerCase card
    (final (fetchRows txt (Resolved (rows_answer rowsData)) profilesAnswer) st)
  = match rowsData with
    | [] => [ListingView.EmptyBlock (ListingView.none_found vtxt) (ListingView.be_first vtxt)]
    | _ :: _ =>
        [ListingView.GridBlock
           (map (fun r => card {| row := r; userName := display_name profiles (user_id r) |})
                rowsData)]
    end.
Proof.
  intros Hlc Hq Hc Hp.
  set (st' := final (fetchRows txt (Resolved (rows_answer rowsData)) profilesAnswer) st).
  assert (rows st' = map (fun r => {| row := r; userName := display_name profiles (user_id r) |})
                         rowsData) as Hrows.
  { exact (fetch_merge txt profilesAnswer st (rows_answer rowsData) (rows_answer profiles)
             eq_refl Hp eq_refl). }
  destruct (fetch_always txt (Resolved (rows_answer rowsData)) profilesAnswer st)
    as (_ & _ & _ & Hl & Hq' & Hc').
  fold st' in Hl, Hq', Hc'.
  assert (error_state st' = None) as He.
  { unfold st', final.
    destruct (decide (userIds_of (data (rows_answer rowsData)) = [])) as [Hids | Hids].
    - by rewrite (fetch_no_ids txt profilesAnswer st (rows_answer rowsData) eq_refl Hids).
    - by rewrite (fetch_profiles_ok txt profilesAnswer st (rows_answer rowsData)
                    (rows_answer profiles) eq_refl Hids Hp eq_refl). }
  assert (filteredRows toLowerCase st' = rows st') as Hf.
  { apply filteredRows_all; congruence. }
  destruct (render_cases vtxt toLowerCase card st') as (_ & _ & H3 & H4).
  rewrite He in H3, H4. rewrite Hf, Hrows in H3, H4.
  destruct rowsData as [|r l].
  - by rewrite H4.
  - rewrite H3; [| done..]. by rewrite map_map.
Qed.

End FetchThenRender.

(** X16: from fetch to screen.  After a fetch whose rows request failed
    (error answer or rejected promise) the page renders the error block
    with its fixed message, whatever query and category are set.  After a
    fetch that succeeded, with the empty query and the category "All",
    the page renders one card per fetched row, in the fetched order and
    with the merged display name, or, when nothing was fetched, the empty
    block with the page's invitation.  ([toLowerCase] maps the empty
    string to itself.) *)
Theorem fetch_then_render (fmt toLowerCase : jsstring -> jsstring) :
  (forall rowsAnswer profilesAnswer (st : HelpRequests.State),
     answer_failed rowsAnswer ->
     HelpRequestsView.render fmt toLowerCase
       (final (HelpRequests.fetchRequests rowsAnswer profilesAnswer) st)
     = [ListingView.ErrorBlock (js "Failed to load help requests. Please try again.")])
  /\
  (forall rowsData profiles profilesAnswer (st : HelpRequests.State),
     toLowerCase [] = [] ->
     Listing.searchQuery st = [] -> Listing.selectedCategory st = js "All" ->
     profilesAnswer (Listing.userIds_of (Some rowsData)) = Resolved (rows_answer profiles) ->
     HelpRequestsView.render fmt toLowerCase
       (final (HelpRequests.fetchRequests (Resolved (rows_answer rowsData)) profilesAnswer) st)
     = match rowsData with
       | [] => [ListingView.EmptyBlock (js "No help requests found")
                  (js "Be the first to submit a request!")]
       | _ :: _ =>
           [ListingView.GridBlock
              (map (fun r => HelpRequestsView.card fmt
                               {| Listing.row := r;
                                  Listing.userName := display_name profiles (HelpRequests.user_id r) |})
                   rowsData)]
       end)
  /\
  (forall rowsAnswer profilesAnswer (st : Donations.State),
     answer_failed rowsAnswer ->
     DonationsView.render fmt toLowerCase
       (final (Donations.fetchDonations rowsAnswer profilesAnswer) st)
     = [ListingView.ErrorBlock (js "Failed to load donations. Please try again.")])
  /\
  (forall rowsData profiles profilesAnswer (st : Donations.State),
     toLowerCase [] = [] ->
     Listing.searchQuery st = [] -> Listing.selectedCategory st = js "All" ->
     profilesAnswer (Listing.userIds_of (Some rowsData)) = Resolved (rows_answer profiles) ->
     DonationsView.render fmt toLowerCase
       (final (Donations.fetchDonations (Resolved (rows_answer rowsData)) profilesAnswer) st)
     = match rowsData with
       | [] => [ListingView.EmptyBlock (js "No donations found")
                  (js "Be the first to offer a donation!")]
       | _ :: _ =>
           [ListingView.GridBlock
              (map (fun r => DonationsView.card fmt
                               {| Listing.row := r;
                                  Listing.userName := display_name profiles (Donations.user_id r) |})
                   rowsData)]
       end).
Proof.
  split_and!.
  - intros rowsAnswer profilesAnswer st Hf.
    by apply (render_after_failed_fetch HelpRequests.texts HelpRequestsView.texts).
  - intros rowsData profiles profilesAnswer st Hlc Hq Hc Hp.
    exact (render_after_fetch HelpRequests.texts HelpRequestsView.texts toLowerCase
             (HelpRequestsView.card fmt) rowsData profiles profilesAnswer st Hlc Hq Hc Hp).
  - intros rowsAnswer profilesAnswer st Hf.
    by apply (render_after_failed_fetch Donations.texts DonationsView.texts).
  - intros rowsData profiles profilesAnswer st Hlc Hq Hc Hp.
    exact (render_after_fetch Donations.texts DonationsView.texts toLowerCase
             (DonationsView.card fmt) rowsData profiles profilesAnswer st Hlc Hq Hc Hp).
Qed.

Lemma fetch_then_render_witness :
  HelpRequestsView.render (fun s => s) JsString.ascii_toLowerCase
    (final (HelpRequests.fetchRequests (Rejected (js "TypeError"))
              (fun _ => Resolved (rows_answer []))) loaded_requests_page)
  = [ListingView.ErrorBlock (js "Failed to load help requests. Please try again.")]
  /\
  DonationsView.render (fun s => s) JsString.ascii_toLowerCase
    (final (Donations.fetchDonations (Resolved (rows_answer [sample_donation]))
              (fun _ => Resolved (rows_answer [named_profile]))) idle_donations_page)
  = [ListingView.GridBlock
       [ {| DonationsView.id := js "d1"; DonationsView.title := js "school books";
            DonationsView.description := []; DonationsView.category := js "Education";
            DonationsView.location := js "Mumbai"; DonationsView.userName := js "Asha";
            DonationsView.createdAt := js "2025-01-03T00:00:00Z" |} ]].
Proof.
  split.
  - exact (proj1 (fetch_then_render (fun s => s) JsString.ascii_toLowerCase)
             (Rejected (js "TypeError")) (fun _ => Resolved (rows_answer [])) loaded_requests_page I).
  - exact (proj2 (proj2 (proj2 (fetch_then_render (fun s => s) JsString.ascii_toLowerCase)))
             [sample_donation] [named_profile] (fun _ => Resolved (rows_answer [named_profile]))
             idle_donations_page eq_refl eq_refl eq_refl eq_refl).
Defined.

(** ** Profile page, further *)

Ltac delete_run :=
  unfold Profile.handleDeleteDonation, Profile.handleDeleteRequest,
         ProfilePage.deleteDonation_closure, ProfilePage.deleteRequest_closure,
         Profile.setDonations, Profile.setRequests, completes;
  unfold_handler; cbn.

(** Case analysis on the answer to a delete. *)
Ltac delete_answer a :=
  destruct a as [[? [?|]]|]; cbn;
  repeat match goal with
  | |- context [if ?x === ?y then _ else _] => destruct (x === y) eqn:?; cbn
  end.

(** X17: a delete handler, whatever the answer, returns without throwing,
    sends exactly one request (the delete of the given id on its own
    table), shows exactly one toast and navigates nowhere; when the
    promise rejects the toast is "An unexpected error occurred" and the
    state is left as it was. *)
Theorem delete_sends_one_request_and_one_toast :
  (forall id answer (st : Profile.State),
     let h := Profile.handleDeleteDonation id answer in
     completes h st /\
     requests_sent (effects h st) = [DeleteById (js "donations") id] /\
     (exists t, List.filter is_toast (effects h st) = [t]) /\
     List.filter is_navigate (effects h st) = [] /\
     (forall reason, answer = Rejected reason ->
        List.filter is_toast (effects h st) = [ToastError (js "An unexpected error occurred")] /\
        final h st = st))
  /\
  (forall id answer (st : Profile.State),
     let h := Profile.handleDeleteRequest id answer in
     completes h st /\
     requests_sent (effects h st) = [DeleteById (js "help_requests") id] /\
     (exists t, List.filter is_toast (effects h st) = [t]) /\
     List.filter is_navigate (effects h st) = [] /\
     (forall reason, answer = Rejected reason ->
        List.filter is_toast (effects h st) = [ToastError (js "An unexpected error occurred")] /\
        final h st = st)).
Proof.
  split; intros id answer st h; subst h; delete_run; delete_answer answer;
    split_and!; eauto; try done; intros; by destruct st.
Qed.

Lemma delete_sends_one_request_and_one_toast_witness :
  final (Profile.handleDeleteDonation (js "d1") (Rejected (js "TypeError"))) my_profile_page
  = my_profile_page
  /\
  List.filter is_toast
    (effects (Profile.handleDeleteRequest (js "r1") (Rejected (js "TypeError"))) my_profile_page)
  = [ToastError (js "An unexpected error occurred")].
Proof.
  split.
  - exact (proj2 (proj2 (proj2 (proj2 (proj2 (proj1 delete_sends_one_request_and_one_toast
             (js "d1") (Rejected (js "TypeError")) my_profile_page)))) (js "TypeError") eq_refl)).
  - exact (proj1 (proj2 (proj2 (proj2 (proj2 (proj2 delete_sends_one_request_and_one_toast
             (js "r1") (Rejected (js "TypeError")) my_profile_page)))) (js "TypeError") eq_refl)).
Defined.

Lemma filter_all {A} (P : A -> Prop) `{!forall x, Decision (P x)} (l : list A) :
  Forall P l -> filter P l = l.
Proof.
  induction 1 as [|x l Hx _ IH]; [done |].
  rewrite filter_cons. by rewrite decide_True, IH.
Qed.

Lemma length_filter_unique {A} (key : A -> jsstring) (l : list A) (x : A) :
  NoDup (map key l) -> x ∈ l ->
  S (length (filter (fun y => key y <> key x) l)) = length l.
Proof.
  induction l as [|y l IH]; simpl; intros Hnd Hin.
  - by apply elem_of_nil in Hin.
  - apply NoDup_cons in Hnd as [Hy Hnd]. rewrite filter_cons.
    apply elem_of_cons in Hin as [-> | Hin].
    + rewrite decide_False by (intros Hne; by apply Hne).
      f_equal. f_equal. apply filter_all, Forall_forall.
      intros z Hz Heq. apply Hy. rewrite <- Heq. apply list_elem_of_fmap. by exists z.
    + rewrite decide_True.
      * simpl. f_equal. by apply IH.
      * intros Heq. apply Hy. rewrite Heq. apply list_elem_of_fmap. by exists x.
Qed.

Lemma NoDup_map_filter {A B} (key : A -> B) (P : A -> Prop) `{!forall x, Decision (P x)}
    (l : list A) :
  NoDup (map key l) -> NoDup (map key (filter P l)).
Proof.
  induction l as [|y l IH]; simpl; intros Hnd; [done |].
  apply NoDup_cons in Hnd as [Hy Hnd]. rewrite filter_cons.
  destruct (decide (P y)); [| by apply IH].
  simpl. apply NoDup_cons. split; [| by apply IH].
  intros Hin. apply Hy. apply list_elem_of_fmap in Hin as (z & -> & Hz).
  apply list_elem_of_fmap. exists z. split; [done |].
  by apply list_elem_of_filter in Hz as [_ Hz].
Qed.

(** X18: deleting an id that no item of the local list carries: when the
    backend answers without error the handler still reports success, and
    the local state is left exactly as it was. *)
Theorem delete_of_unlisted_id :
  (forall (st : Profile.State) id res,
     error res = None ->
     (forall d, d ∈ Profile.donations st -> Profile.d_id d <> id) ->
     let h := Profile.handleDeleteDonation id (Resolved res) in
     final h st = st /\
     List.filter is_toast (effects h st) = [ToastSuccess (js "Donation deleted successfully")])
  /\
  (forall (st : Profile.State) id res,
     error res = None ->
     (forall r, r ∈ Profile.requests st -> Profile.r_id r <> id) ->
     let h := Profile.handleDeleteRequest id (Resolved res) in
     final h st = st /\
     List.filter is_toast (effects h st) = [ToastSuccess (js "Request deleted successfully")]).
Proof.
  split; intros st id res He Hno h; subst h; unfold final, effects.
  - rewrite (delete_donation_ok st id res He). simpl. rewrite filter_negb_eqb.
    rewrite filter_all by (by apply Forall_forall). by destruct st.
  - rewrite (delete_request_ok st id res He). simpl. rewrite filter_negb_eqb.
    rewrite filter_all by (by apply Forall_forall). by destruct st.
Qed.

Lemma delete_of_unlisted_id_witness :
  final (Profile.handleDeleteDonation (js "d9") (Resolved accepted)) my_profile_page
  = my_profile_page
  /\
  final (Profile.handleDeleteRequest (js "r9") (Resolved accepted)) my_profile_page
  = my_profile_page.
Proof.
  split.
  - refine (proj1 (proj1 delete_of_unlisted_id my_profile_page (js "d9") accepted eq_refl _)).
    intros d Hd. apply list_elem_of_In in Hd. simpl in Hd.
    destruct Hd as [<- | [<- | [<- | []]]]; discriminate.
  - refine (proj1 (proj2 delete_of_unlisted_id my_profile_page (js "r9") accepted eq_refl _)).
    intros r Hr. apply list_elem_of_In in Hr. simpl in Hr.
    destruct Hr as [<- | []]; discriminate.
Defined.

(** X19: when the ids of the local list are distinct, a successful
    delete of a listed item shortens the list by exactly one, and the ids
    of the remaining items are still distinct. *)
Theorem delete_with_distinct_ids :
  (forall (st : Profile.State) d res,
     error res = None ->
     NoDup (map Profile.d_id (Profile.donations st)) -> d ∈ Profile.donations st ->
     let st' := final (Profile.handleDeleteDonation (Profile.d_id d) (Resolved res)) st in
     S (length (Profile.donations st')) = length (Profile.donations st) /\
     (d ∉ Profile.donations st') /\
     NoDup (map Profile.d_id (Profile.donations st')))
  /\
  (forall (st : Profile.State) r res,
     error res = None ->
     NoDup (map Profile.r_id (Profile.requests st)) -> r ∈ Profile.requests st ->
     let st' := final (Profile.handleDeleteRequest (Profile.r_id r) (Resolved res)) st in
     S (length (Profile.requests st')) = length (Profile.requests st) /\
     (r ∉ Profile.requests st') /\
     NoDup (map Profile.r_id (Profile.requests st'))).
Proof.
  split; intros st x res He Hnd Hin st'; subst st'; unfold final.
  - rewrite (delete_donation_ok st _ res He). simpl. rewrite filter_negb_eqb.
    split_and!.
    + by apply length_filter_unique.
    + intros Hx. by apply list_elem_of_filter in Hx as [Hx _].
    + by apply NoDup_map_filter.
  - rewrite (delete_request_ok st _ res He). simpl. rewrite filter_negb_eqb.
    split_and!.
    + by apply length_filter_unique.
    + intros Hx. by apply list_elem_of_filter in Hx as [Hx _].
    + by apply NoDup_map_filter.
Qed.

Lemma delete_with_distinct_ids_witness :
  S (length (Profile.donations
       (final (Profile.handleDeleteDonation (js "d2") (Resolved accepted)) distinct_profile_page)))
  = 2
  /\
  tutoring ∉ Profile.requests
    (final (Profile.handleDeleteRequest (js "r1") (Resolved accepted)) distinct_profile_page).
Proof.
  split.
  - refine (proj1 (proj1 delete_with_distinct_ids distinct_profile_page books accepted eq_refl _ _)).
    + vm_compute. repeat constructor; intros Hin; inversion Hin; subst;
        try discriminate; match goal with H : _ ∈ [] |- _ => inversion H end.
    + right. left.
  - refine (proj1 (proj2 (proj2 delete_with_distinct_ids distinct_profile_page tutoring accepted
              eq_refl _ _))).
    + repeat constructor. intros Hin. inversion Hin.
    + left.
Defined.

(** X20: successful deletes that run one after the other, each from the
    state the previous one left, commute, and deleting the same id twice
    leaves the list as deleting it once. *)
Theorem sequential_deletes_commute :
  (forall (st : Profile.State) a b resA resB,
     error resA = None -> error resB = None ->
     let delete id res := Profile.handleDeleteDonation id (Resolved res) in
     final (delete b resB) (final (delete a resA) st)
       = final (delete a resA) (final (delete b resB) st) /\
     final (delete a resB) (final (delete a resA) st) = final (delete a resA) st)
  /\
  (forall (st : Profile.State) a b resA resB,
     error resA = None -> error resB = None ->
     let delete id res := Profile.handleDeleteRequest id (Resolved res) in
     final (delete b resB) (final (delete a resA) st)
       = final (delete a resA) (final (delete b resB) st) /\
     final (delete a resB) (final (delete a resA) st) = final (delete a resA) st).
Proof.
  split; intros st a b resA resB HA HB delete; subst delete; unfold final; cbv beta.
  - rewrite !(fun s id res H => delete_donation_ok s id res H) by done. simpl.
    rewrite !filter_negb_eqb. split.
    + f_equal. rewrite !list_filter_filter. apply list_filter_iff. tauto.
    + f_equal. rewrite list_filter_filter. apply list_filter_iff. tauto.
  - rewrite !(fun s id res H => delete_request_ok s id res H) by done. simpl.
    rewrite !filter_negb_eqb. split.
    + f_equal. rewrite !list_filter_filter. apply list_filter_iff. tauto.
    + f_equal. rewrite list_filter_filter. apply list_filter_iff. tauto.
Qed.

Lemma sequential_deletes_commute_witness :
  Profile.donations
    (final (Profile.handleDeleteDonation (js "d2") (Resolved accepted))
       (final (Profile.handleDeleteDonation (js "d1") (Resolved accepted)) my_profile_page))
  = Profile.donations
      (final (Profile.handleDeleteDonation (js "d1") (Resolved accepted))
         (final (Profile.handleDeleteDonation (js "d2") (Resolved accepted)) my_profile_page)).
Proof.
  exact (f_equal Profile.donations
           (proj1 (proj1 sequential_deletes_commute my_profile_page (js "d1") (js "d2")
                     accepted accepted eq_refl eq_refl))).
Defined.



(** X22: the effect that loads the profile page.  It returns without
    throwing and shows no toast; it navigates, to "/login", exactly when
    authentication has settled without a user; without a user it sends
    nothing and leaves the state alone; with a user it sends exactly the
    two queries, both restricted to that user's id, and ends with
    [loading] off whatever the answers are. *)
Theorem profile_effect_is_gated_by_auth :
  forall authLoading user donationsAnswer requestsAnswer (st : Profile.State),
    let h := ProfilePage.onAuthChange authLoading user donationsAnswer requestsAnswer in
    completes h st /\
    List.filter is_toast (effects h st) = [] /\
    (forall p, Navigate p ∈ effects h st <->
               authLoading = false /\ user = None /\ p = js "/login") /\
    (user = None -> requests_sent (effects h st) = [] /\ final h st = st) /\
    (forall u, user = Some u ->
       requests_sent (effects h st)
         = [ SelectByUser (js "donations")
               (js "id, title, description, category, created_at") (user_id_of u);
             SelectByUser (js "help_requests")
               (js "id, title, description, category, urgency, created_at") (user_id_of u) ] /\
       Profile.loading (final h st) = false).
Proof.
  intros authLoading user dAns rAns st h; subst h.
  unfold ProfilePage.onAuthChange, Profile.fetchUserData, Profile.setError, Profile.setLoading,
    Profile.setDonations, Profile.setRequests, completes.
  unfold_handler.
  destruct user as [u|], authLoading; cbn;
    try (destruct dAns as [dres | ?], rAns as [rres | ?]; cbn;
         try destruct (error dres); try destruct (error rres); cbn);
    split_and!;
    first [ done
          | by eauto
          | intros _; split; [done | by destruct st]
          | by intros u' [= <-]
          | let path := fresh "path" in
            intros path; split;
            [ intros Hp; in_effects Hp; try injection Hp as <-; done
            | intros (? & ? & ->); first [done | by left] ] ].
Qed.

Lemma profile_effect_is_gated_by_auth_witness :
  final (ProfilePage.onAuthChange true None (Resolved (rows_answer [coat]))
           (Resolved (rows_answer [tutoring]))) empty_profile_page
  = empty_profile_page
  /\
  Profile.loading
    (final (ProfilePage.onAuthChange true (Some sample_user) (Resolved failed_answer)
              (Rejected (js "TypeError"))) empty_profile_page)
  = false.
Proof.
  split.
  - exact (proj2 (proj1 (proj2 (proj2 (proj2 (profile_effect_is_gated_by_auth true None
             (Resolved (rows_answer [coat])) (Resolved (rows_answer [tutoring]))
             empty_profile_page)))) eq_refl)).
  - exact (proj2 (proj2 (proj2 (proj2 (proj2 (profile_effect_is_gated_by_auth true
             (Some sample_user) (Resolved failed_answer) (Rejected (js "TypeError"))
             empty_profile_page)))) sample_user eq_refl)).
Defined.

(** ** Category colours *)

Lemma colors_lookup_unlisted (cat : list N) :
  cat ∉ [js "Clothing"; js "Electronics"; js "Education"; js "Food"; js "Services"; js "Other"] ->
  ProfilePage.colors !! cat = None.
Proof.
  intros Hno. unfold ProfilePage.colors. by apply not_elem_of_list_to_map_1.
Qed.

(** X23: the colour classes of a category badge.  The lookup never gives
    [undefined]: each of the six listed categories has its own class
    string, and every other category gets the classes of "Other", except
    a category that is named like a member of [Object.prototype], for
    which the inherited member is returned instead of a class string. *)
Theorem category_colour_falls_back_to_other :
  forall cat,
    ProfilePage.getCategoryColor cat <> ProfilePage.Undefined /\
    (forall cls, ProfilePage.colors !! cat = Some cls ->
       ProfilePage.getCategoryColor cat = ProfilePage.Str cls) /\
    (ProfilePage.colors !! cat = None -> cat ∉ ProfilePage.object_prototype_keys ->
       ProfilePage.getCategoryColor cat = ProfilePage.Str (js "bg-gray-100 text-gray-700")) /\
    (cat ∈ ProfilePage.object_prototype_keys ->
       ProfilePage.getCategoryColor cat = ProfilePage.Inherited cat) /\
    (ProfilePage.colors !! cat = None <->
       cat ∉ [js "Clothing"; js "Electronics"; js "Education"; js "Food"; js "Services"; js "Other"]).
Proof.
  intros cat.
  assert (forall cls, ProfilePage.colors !! cat = Some cls -> cls <> []) as Hcls.
  { intros cls Hl. unfold ProfilePage.colors in Hl.
    apply elem_of_list_to_map_2, list_elem_of_In in Hl. simpl in Hl.
    repeat destruct Hl as [Hl | Hl]; try done; by injection Hl as <- <-. }
  assert (cat ∈ ProfilePage.object_prototype_keys -> ProfilePage.colors !! cat = None) as Hproto.
  { intros Hin. apply list_elem_of_In in Hin. simpl in Hin.
    repeat destruct Hin as [Hin | Hin]; try done; subst cat; by vm_compute. }
  unfold ProfilePage.getCategoryColor, ProfilePage.get, ProfilePage.value_or.
  split_and!.
  - destruct (ProfilePage.colors !! cat) as [cls|] eqn:E.
    + simpl. specialize (Hcls cls eq_refl). by destruct cls.
    + by destruct (decide (cat ∈ ProfilePage.object_prototype_keys)).
  - intros cls E. rewrite E. simpl. specialize (Hcls cls E). by destruct cls.
  - intros E Hno. rewrite E. by rewrite decide_False.
  - intros Hin. rewrite (Hproto Hin). by rewrite decide_True.
  - split; [| apply colors_lookup_unlisted].
    intros E Hin. apply list_elem_of_In in Hin. simpl in Hin.
    repeat destruct Hin as [Hin | Hin]; try done; subst cat; by vm_compute in E.
Qed.

Lemma category_colour_falls_back_to_other_witness :
  ProfilePage.getCategoryColor (js "Furniture") = ProfilePage.Str (js "bg-gray-100 text-gray-700")
  /\
  ProfilePage.getCategoryColor (js "Food") = ProfilePage.Str (js "bg-orange-100 text-orange-700")
  /\
  ProfilePage.getCategoryColor (js "constructor") = ProfilePage.Inherited (js "constructor").
Proof.
  split_and!.
  - refine (proj1 (proj2 (proj2 (category_colour_falls_back_to_other (js "Furniture")))) _ _).
    + by vm_compute.
    + intros Hin. apply list_elem_of_In in Hin. simpl in Hin.
      repeat destruct Hin as [Hin | Hin]; try done; by vm_compute in Hin.
  - refine (proj1 (proj2 (category_colour_falls_back_to_other (js "Food"))) _ _).
    by vm_compute.
  - refine (proj1 (proj2 (proj2 (proj2 (category_colour_falls_back_to_other (js "constructor"))))) _).
    left.
Defined.
